(** * Ancy Travel Guide: the completion client and its caller

    A shallow embedding of [src/ancy.py]: the request construction and the
    error mapping of [AncyTravelGuide], [validate_api_key], and the script
    [main] with its configuration check and its submission handler.

    Python values are modelled as Python has them: text is a sequence of
    code points, JSON data is a tree of values, lists, dicts and instances
    created by the program are objects in a store addressed by references,
    and a call either returns, raises, or leaves the script through one of
    Streamlit's control exits. *)

From Stdlib Require Import ZArith NArith String Ascii SpecFloat DecimalString.
From stdpp Require Import base option list gmap strings.

Set Warnings "-register-all".
Open Scope Z_scope.

(** ** Text *)

(** A Python [str] is a sequence of Unicode code points: [len] counts code
    points and [strip] looks at each of them. *)
Definition str : Type := list N.

(** The string literals of the source file are UTF-8; this decodes the bytes
    of a literal into its code points. *)
Fixpoint utf8_decode (bs : list N) : str :=
  match bs with
  | [] => []
  | b0 :: r0 =>
    if (b0 <? 128)%N then b0 :: utf8_decode r0
    else if (b0 <? 224)%N then
      match r0 with
      | b1 :: r1 => (b0 mod 32 * 64 + b1 mod 64)%N :: utf8_decode r1
      | _ => []
      end
    else if (b0 <? 240)%N then
      match r0 with
      | b1 :: b2 :: r2 =>
        (b0 mod 16 * 4096 + b1 mod 64 * 64 + b2 mod 64)%N :: utf8_decode r2
      | _ => []
      end
    else
      match r0 with
      | b1 :: b2 :: b3 :: r3 =>
        (b0 mod 8 * 262144 + b1 mod 64 * 4096 + b2 mod 64 * 64 + b3 mod 64)%N
          :: utf8_decode r3
      | _ => []
      end
  end.

Definition lit (s : string) : str :=
  utf8_decode (map N_of_ascii (list_ascii_of_string s)).

(** [str(n)] and [f"{n}"] for an [int]: its decimal digits. *)
Definition str_of_int (z : Z) : str :=
  lit (NilZero.string_of_int (Z.to_int z)).

(** [c.isspace()]: the code points CPython classifies as whitespace. *)
Definition isspace (c : N) : bool :=
  ((9 <=? c) && (c <=? 13) || (28 <=? c) && (c <=? 32)
   || (c =? 133) || (c =? 160) || (c =? 5760)
   || (8192 <=? c) && (c <=? 8202)
   || (c =? 8232) || (c =? 8233) || (c =? 8239) || (c =? 8287)
   || (c =? 12288))%N.

Fixpoint lstrip (s : str) : str :=
  match s with
  | [] => []
  | c :: r => if isspace c then lstrip r else s
  end.

Definition rstrip (s : str) : str := reverse (lstrip (reverse s)).

(** [s.strip()] *)
Definition strip (s : str) : str := rstrip (lstrip s).

(** ** Values *)

(** The values that JSON data and the program's literals are made of. *)
Inductive pyval : Type :=
| PNone
| PBool (b : bool)
| PInt (z : Z)
| PFloat (f : spec_float)
| PStr (s : str)
| PList (items : list pyval)
| PDict (fields : list (str * pyval)).

(** Truth value of an object, as [if], [not], [and] and [or] test it. *)
Definition truthy (v : pyval) : bool :=
  match v with
  | PNone => false
  | PBool b => b
  | PInt z => negb (z =? 0)
  | PFloat (S754_zero _) => false
  | PFloat _ => true
  | PStr s => negb (bool_decide (s = []))
  | PList l => match l with [] => false | _ => true end
  | PDict d => match d with [] => false | _ => true end
  end.

(** Lookup of a key in a dict (keys are unique, kept in insertion order). *)
Fixpoint dict_get (d : list (str * pyval)) (k : str) : option pyval :=
  match d with
  | [] => None
  | (k', v) :: r => if bool_decide (k' = k) then Some v else dict_get r k
  end.

(** ** Exceptions *)

(** The exception classes the program can meet.  All of them derive from
    [Exception]. *)
Inductive exn_class : Type :=
| Exception_
| RequestException
| HTTPError
| ConnectionError
| Timeout
| ConnectTimeout
| ReadTimeout
| JSONDecodeError
| KeyError
| IndexError
| TypeError
| AttributeError
| UnboundLocalError.

#[global] Instance exn_class_eq_dec : EqDecision exn_class.
Proof. solve_decision. Defined.

(** The direct base classes of a class. *)
Definition bases (c : exn_class) : list exn_class :=
  match c with
  | Exception_ => []
  | RequestException => [Exception_]
  | HTTPError | ConnectionError | Timeout => [RequestException]
  | ConnectTimeout => [ConnectionError; Timeout]
  | ReadTimeout => [Timeout]
  | JSONDecodeError | KeyError | IndexError | TypeError
  | AttributeError | UnboundLocalError => [Exception_]
  end.

(** [issubclass c d], by following [bases] (the hierarchy is three deep). *)
Fixpoint issubclass_upto (n : nat) (c d : exn_class) : bool :=
  bool_decide (c = d) ||
  match n with
  | O => false
  | S n' => existsb (fun b => issubclass_upto n' b d) (bases c)
  end.

Definition issubclass : exn_class -> exn_class -> bool := issubclass_upto 3.

(** An exception: its class and the text [str(e)] gives. *)
Record exn : Type := Exn { exn_cls : exn_class; exn_str : str }.

Definition isinstance (e : exn) (c : exn_class) : bool :=
  issubclass (exn_cls e) c.

(** A subscript [v[k]] is a string key or an integer index. *)
Inductive subscript : Type :=
| SubStr (s : str)
| SubInt (i : Z).

(** [repr] of a subscript.  The string keys subscripted in this program are
    plain words, whose [repr] is the word between single quotes. *)
Definition repr_subscript (k : subscript) : str :=
  match k with
  | SubStr s => lit "'" ++ s ++ lit "'"
  | SubInt i => str_of_int i
  end.

(** [str(KeyError(k))] is [repr(k)]. *)
Definition mkKeyError (k : subscript) : exn := Exn KeyError (repr_subscript k).

(** ** Subscripting JSON data *)

Definition type_name (v : pyval) : str :=
  match v with
  | PNone => lit "NoneType"
  | PBool _ => lit "bool"
  | PInt _ => lit "int"
  | PFloat _ => lit "float"
  | PStr _ => lit "str"
  | PList _ => lit "list"
  | PDict _ => lit "dict"
  end.

(** [l[i]] on a sequence: a negative index counts from the end. *)
Definition seq_index {A} (l : list A) (i : Z) : option A :=
  let n := Z.of_nat (length l) in
  let j := if i <? 0 then i + n else i in
  if (0 <=? j) && (j <? n) then l !! Z.to_nat j else None.

(** [v[k]]: the value, or the exception Python raises. *)
Definition getitem (v : pyval) (k : subscript) : exn + pyval :=
  match v, k with
  | PDict d, SubStr s =>
    match dict_get d s with
    | Some x => inr x
    | None => inl (mkKeyError k)
    end
  | PDict d, SubInt _ => inl (mkKeyError k)
  | PList l, SubInt i =>
    match seq_index l i with
    | Some x => inr x
    | None => inl (Exn IndexError (lit "list index out of range"))
    end
  | PList _, SubStr _ =>
    inl (Exn TypeError (lit "list indices must be integers or slices, not str"))
  | PStr s, SubInt i =>
    match seq_index s i with
    | Some c => inr (PStr [c])
    | None => inl (Exn IndexError (lit "string index out of range"))
    end
  | PStr _, SubStr _ =>
    inl (Exn TypeError (lit "string indices must be integers, not 'str'"))
  | _, _ =>
    inl (Exn TypeError
           (lit "'" ++ type_name v ++ lit "' object is not subscriptable"))
  end.

(** ** The store *)

(** References to the objects the program creates. *)
Definition loc : Type := positive.

(** A [{"role": ..., "content": ...}] dict literal. *)
Definition turn (role : str) (content : pyval) : list (str * pyval) :=
  [(lit "role", PStr role); (lit "content", content)].

(** The mutable objects: lists of references, dicts, and instances of
    [AncyTravelGuide] with their [api_key] attribute. *)
Inductive obj : Type :=
| OList (items : list loc)
| ODict (fields : list (str * pyval))
| OAncy (api_key : str).

(** ** The remote service *)

(** What [requests.post] is called with; [req_json] is the serialised
    [json=] argument. *)
Record Request : Type := mkRequest {
  req_url : str;
  req_headers : list (str * str);
  req_json : pyval;
  req_timeout : Z
}.

(** What a response object answers: [json_result] is the parsed body, or
    the message of the decoding error [response.json()] raises. *)
Record Response : Type := mkResponse {
  status_code : Z;
  reason : str;
  url : str;
  json_result : str + pyval
}.

(** The failures of [requests.post] itself.  [HTTPError] is not among
    them: only [raise_for_status] raises it. *)
Inductive transport_error : Type :=
| ConnectionFailed (msg : str)
| ConnectTimedOut (msg : str)
| ReadTimedOut (msg : str)
| OtherFailure (msg : str).

Definition exn_of_transport_error (t : transport_error) : exn :=
  match t with
  | ConnectionFailed m => Exn ConnectionError m
  | ConnectTimedOut m => Exn ConnectTimeout m
  | ReadTimedOut m => Exn ReadTimeout m
  | OtherFailure m => Exn Exception_ m
  end.

Inductive post_outcome : Type :=
| PostRaises (t : transport_error)
| PostReturns (r : Response).

(** ** The world and the monad of calls *)

(** What Streamlit is asked to show; static markup is left out. *)
Inductive ui_call : Type :=
| set_page_config
| markdown_style
| st_error (msg : str)
| st_info (msg : str)
| welcome_message
| clear_button
| user_bubble (content : pyval)
| ancy_bubble (content : pyval)
| divider
| chat_form
| spinner (msg : str)
| footer.

(** [st.session_state]: an attribute is absent until it is first set. *)
Record SessionState : Type := mkSession {
  ss_messages : option loc;
  ss_ancy_initialized : option bool
}.

Record World : Type := mkWorld {
  heap : gmap loc obj;
  sent : list Request;
  ui_log : list ui_call;
  session_state : SessionState
}.

Definition set_heap (f : gmap loc obj -> gmap loc obj) (w : World) : World :=
  mkWorld (f (heap w)) (sent w) (ui_log w) (session_state w).

Definition set_sent (f : list Request -> list Request) (w : World) : World :=
  mkWorld (heap w) (f (sent w)) (ui_log w) (session_state w).

Definition set_ui_log (f : list ui_call -> list ui_call) (w : World) : World :=
  mkWorld (heap w) (sent w) (f (ui_log w)) (session_state w).

Definition set_session_state (f : SessionState -> SessionState) (w : World)
  : World :=
  mkWorld (heap w) (sent w) (ui_log w) (f (session_state w)).

(** [st.stop()] and [st.rerun()] leave the script; no [except] clause of the
    program catches them. *)
Inductive control : Type :=
| StopScript
| RerunScript.

Inductive outcome (A : Type) : Type :=
| Ret (a : A)
| Raise (e : exn)
| Control (c : control).

Arguments Ret {A} a.
Arguments Raise {A} e.
Arguments Control {A} c.

Definition M (A : Type) : Type := World -> outcome A * World.

#[global] Instance M_ret : MRet M := fun A a w => (Ret a, w).

#[global] Instance M_bind : MBind M := fun A B f m w =>
  match m w with
  | (Ret a, w') => f a w'
  | (Raise e, w') => (Raise e, w')
  | (Control c, w') => (Control c, w')
  end.

Definition raise {A} (e : exn) : M A := fun w => (Raise e, w).

Definition leave {A} (c : control) : M A := fun w => (Control c, w).

Definition of_sum {A} (r : exn + A) : M A :=
  match r with
  | inl e => raise e
  | inr a => mret a
  end.

(** [try: x = first; ... rest ... except ...: handlers], where the handlers
    may read the local [x], which is unbound when [first] raised. *)
Definition try_except {A B} (first : M A) (rest : A -> M B)
    (handlers : option A -> exn -> M B) : M B := fun w =>
  match first w with
  | (Ret x, w1) =>
    match rest x w1 with
    | (Raise e, w2) => handlers (Some x) e w2
    | r => r
    end
  | (Raise e, w1) => handlers None e w1
  | (Control c, w1) => (Control c, w1)
  end.

(** *** Objects *)

(** A new object, at a reference not in use. *)
Definition alloc (o : obj) : M loc := fun w =>
  let l := fresh (dom (heap w)) in
  (Ret l, set_heap (insert l o) w).

Definition obj_type_name (o : option obj) : str :=
  match o with
  | Some (OList _) => lit "list"
  | Some (ODict _) => lit "dict"
  | Some (OAncy _) => lit "AncyTravelGuide"
  | None => lit "NoneType"
  end.

(** [l[start:]] on a sequence: the items from [start] on, a negative
    [start] counting from the end. *)
Definition slice_from {A} (l : list A) (start : Z) : list A :=
  let n := Z.of_nat (length l) in
  let s := if start <? 0 then Z.max (start + n) 0 else Z.min start n in
  drop (Z.to_nat s) l.

(** [l[start:]] on a list object: the items of the new list.  On any
    other object a [TypeError] is raised; its text is the one Python gives
    for an object without subscripts (for a dict Python words it
    otherwise). *)
Definition list_slice_from (l : loc) (start : Z) : M (list loc) := fun w =>
  match heap w !! l with
  | Some (OList xs) => (Ret (slice_from xs start), w)
  | o =>
    (Raise (Exn TypeError
       (lit "'" ++ obj_type_name o ++ lit "' object is not subscriptable")), w)
  end.

(** [l.extend(xs)] and [l.append(x)]: the list object is changed in place. *)
Definition list_extend (l : loc) (xs : list loc) : M unit := fun w =>
  match heap w !! l with
  | Some (OList ys) => (Ret tt, set_heap (insert l (OList (ys ++ xs))) w)
  | o =>
    (Raise (Exn AttributeError
       (lit "'" ++ obj_type_name o ++ lit "' object has no attribute 'extend'")),
     w)
  end.

Definition list_append (l : loc) (x : loc) : M unit := fun w =>
  match heap w !! l with
  | Some (OList ys) => (Ret tt, set_heap (insert l (OList (ys ++ [x]))) w)
  | o =>
    (Raise (Exn AttributeError
       (lit "'" ++ obj_type_name o ++ lit "' object has no attribute 'append'")),
     w)
  end.

(** [self.api_key] *)
Definition get_api_key (self : loc) : M str := fun w =>
  match heap w !! self with
  | Some (OAncy k) => (Ret k, w)
  | o =>
    (Raise (Exn AttributeError
       (lit "'" ++ obj_type_name o ++ lit "' object has no attribute 'api_key'")),
     w)
  end.

(** [v[k]] on JSON data *)
Definition subscr (v : pyval) (k : subscript) : M pyval := of_sum (getitem v k).


(** Iterating over a list object: its items. *)
Definition list_iter (l : loc) : M (list loc) := fun w =>
  match heap w !! l with
  | Some (OList xs) => (Ret xs, w)
  | o =>
    (Raise (Exn TypeError
       (lit "'" ++ obj_type_name o ++ lit "' object is not iterable")), w)
  end.

(** [message[k]] on an element of a list of dicts. *)
Definition obj_getitem (r : loc) (k : str) : M pyval := fun w =>
  match heap w !! r with
  | Some (ODict d) => of_sum (getitem (PDict d) (SubStr k)) w
  | o =>
    (Raise (Exn TypeError
       (lit "'" ++ obj_type_name o ++ lit "' object is not subscriptable")), w)
  end.

(** *** JSON encoding of the request body *)

(** The elements of a message list, encoded in order.  The lists of this
    program hold dicts of text values ([List[Dict]]), and the encoding is
    the real one on those.  Outside them it is not: any other element is
    refused here although the JSON encoder accepts nested lists, and a
    float that is not finite, which the encoder refuses, is let through. *)
Fixpoint dump_items (σ : gmap loc obj) (refs : list loc) : exn + list pyval :=
  match refs with
  | [] => inr []
  | r :: rest =>
    match σ !! r with
    | Some (ODict d) =>
      match dump_items σ rest with
      | inr vs => inr (PDict d :: vs)
      | inl e => inl e
      end
    | o =>
      inl (Exn TypeError
             (lit "Object of type " ++ obj_type_name o
                ++ lit " is not JSON serializable"))
    end
  end.

Definition dump_list (l : loc) : M pyval := fun w =>
  match heap w !! l with
  | Some (OList refs) =>
    match dump_items (heap w) refs with
    | inr vs => (Ret (PList vs), w)
    | inl e => (Raise e, w)
    end
  | o =>
    (Raise (Exn TypeError
       (lit "Object of type " ++ obj_type_name o
          ++ lit " is not JSON serializable")), w)
  end.

(** *** The response object *)

(** [response.raise_for_status()] of the requests library: an [HTTPError]
    for a 4xx or 5xx status, nothing otherwise. *)
Definition raise_for_status (r : Response) : M unit :=
  let http_error_msg :=
    if (400 <=? status_code r) && (status_code r <? 500) then
      str_of_int (status_code r) ++ lit " Client Error: " ++ reason r
        ++ lit " for url: " ++ url r
    else if (500 <=? status_code r) && (status_code r <? 600) then
      str_of_int (status_code r) ++ lit " Server Error: " ++ reason r
        ++ lit " for url: " ++ url r
    else [] in
  if truthy (PStr http_error_msg) then raise (Exn HTTPError http_error_msg)
  else mret tt.

(** [response.json()] *)
Definition response_json (r : Response) : M pyval :=
  match json_result r with
  | inl msg => raise (Exn JSONDecodeError msg)
  | inr v => mret v
  end.

(** ** Constants of the module *)

Definition GROQ_API_URL : str :=
  lit "https://api.groq.com/openai/v1/chat/completions".

Definition MODEL_NAME : str := lit "llama3-8b-8192".

Definition SYSTEM_PROMPT : str := lit "
You are Ancy, a warm and inspiring AI travel guide with a poetic soul and adventurous spirit.

Your characteristics:
- Speak with beautiful, flowing language and travel metaphors
- Always remain enthusiastic, encouraging, and wise
- Offer detailed advice about destinations, travel tips, cultural insights, and emotional support
- Use vivid imagery of places, journeys, and discoveries in your responses
- Be inspiring and uplifting while providing practical, actionable travel wisdom
- Share stories and insights that make travelers feel excited about their journeys
- Keep responses engaging but focused (3-6 sentences typically)

Remember: You are a companion for wanderers, dreamers, and adventurers on their life journeys.
".

(** The float [0.8]: 7205759403792794 * 2^-53 in binary64. *)
Definition float_0_8 : spec_float := S754_finite false 7205759403792794 (-53).

(** ** validate_api_key *)

(** [api_key and api_key != "YOUR_GROQ_API_KEY_HERE" and len(api_key) > 10]:
    [and] gives its left operand when that is false, else its right one.
    [None] stands for an absent key ([os.getenv] found nothing). *)
Definition validate_api_key (api_key : option str) : pyval :=
  match api_key with
  | None => PNone
  | Some s =>
    if truthy (PStr s) then
      if negb (bool_decide (s = lit "YOUR_GROQ_API_KEY_HERE")) then
        PBool (10 <? Z.of_nat (length s))
      else PBool false
    else PStr s
  end.

(** ** AncyTravelGuide *)

(** The [payload] dict literal; [p_messages] refers to the list built
    before it. *)
Record Payload : Type := mkPayload {
  p_model : str;
  p_messages : loc;
  p_max_tokens : Z;
  p_temperature : spec_float;
  p_stream : bool
}.

Definition dump_payload (p : Payload) : M pyval :=
  msgs ← dump_list (p_messages p);
  mret (PDict [(lit "model", PStr (p_model p));
               (lit "messages", msgs);
               (lit "max_tokens", PInt (p_max_tokens p));
               (lit "temperature", PFloat (p_temperature p));
               (lit "stream", PBool (p_stream p))]).

Section Client.

(** The remote service: what a call to it gives, knowing the calls made
    before. *)
Variable network : list Request -> Request -> post_outcome.

(** [requests.post(url, headers=..., json=..., timeout=...)]: the body is
    encoded, the call is made, and a response comes back or the call
    fails. *)
Definition requests_post (url : str) (headers : list (str * str))
    (json : Payload) (timeout : Z) : M Response :=
  body ← dump_payload json;
  (fun w =>
     let req := mkRequest url headers body timeout in
     let w' := set_sent (fun s => s ++ [req]) w in
     match network (sent w) req with
     | PostRaises t => (Raise (exn_of_transport_error t), w')
     | PostReturns r => (Ret r, w')
     end) : M Response.

(** The [except] clauses of [_make_api_request], tried in order. *)
Definition handlers (response : option Response) (e : exn) : M pyval :=
  if isinstance e HTTPError then
    match response with
    | None =>
      raise (Exn UnboundLocalError
        (lit "cannot access local variable 'response' where it is not associated with a value"))
    | Some response =>
      if status_code response =? 401 then
        mret (PStr (lit "🔑 Authentication failed. Please check your Groq API key in .env file."))
      else if status_code response =? 429 then
        mret (PStr (lit "⏳ Rate limit reached. Please wait a moment before trying again."))
      else
        mret (PStr (lit "🚫 API error (" ++ str_of_int (status_code response)
                      ++ lit "): " ++ exn_str e))
    end
  else if isinstance e ConnectionError then
    mret (PStr (lit "🌐 Connection error. Please check your internet connection."))
  else if isinstance e Timeout then
    mret (PStr (lit "⏰ Request timed out. The API might be busy, please try again."))
  else if isinstance e JSONDecodeError then
    mret (PStr (lit "📄 Invalid response format from API."))
  else if isinstance e KeyError then
    mret (PStr (lit "🔍 Unexpected response structure: missing " ++ exn_str e))
  else if isinstance e Exception_ then
    mret (PStr (lit "❌ Unexpected error: " ++ exn_str e))
  else raise e.

(** The statements of the [try] block that follow the call, [response]
    being bound. *)
Definition extract_reply (response : Response) : M pyval :=
  raise_for_status response;;
  result ← response_json response;
  choices ← subscr result (SubStr (lit "choices"));
  choice ← subscr choices (SubInt 0);
  message ← subscr choice (SubStr (lit "message"));
  subscr message (SubStr (lit "content")).

Definition _make_api_request (self : loc) (user_message : str)
    (conversation_history : loc) : M pyval :=
  api_key ← get_api_key self;
  let headers :=
    [(lit "Authorization", lit "Bearer " ++ api_key);
     (lit "Content-Type", lit "application/json")] in
  system ← alloc (ODict (turn (lit "system") (PStr SYSTEM_PROMPT)));
  messages ← alloc (OList [system]);
  last10 ← list_slice_from conversation_history (-10);
  list_extend messages last10;;
  current ← alloc (ODict (turn (lit "user") (PStr user_message)));
  list_append messages current;;
  let payload := mkPayload MODEL_NAME messages 1000 float_0_8 false in
  try_except
    (requests_post GROQ_API_URL headers payload 30)
    extract_reply
    handlers.

Definition chat (self : loc) (user_input : str) (conversation_history : loc)
  : M pyval :=
  if negb (truthy (PStr (strip user_input))) then
    mret (PStr (lit "🤔 I sense the quiet before an adventure... What's stirring in your traveler's heart?"))
  else _make_api_request self user_input conversation_history.

End Client.

(** ** The Streamlit script *)

(** What the widgets give in one run of the script: whether the clear
    button was pressed, the text of the input box, and whether the form was
    submitted. *)
Record Widgets : Type := mkWidgets {
  clear_clicked : bool;
  user_input : str;
  submit_button : bool
}.

(** A call to Streamlit that shows something. *)
Definition st (c : ui_call) : M unit := fun w =>
  (Ret tt, set_ui_log (fun l => l ++ [c]) w).

(** [st.session_state.messages] and [st.session_state.ancy_initialized] *)
Definition get_messages : M loc := fun w =>
  match ss_messages (session_state w) with
  | Some l => (Ret l, w)
  | None =>
    (Raise (Exn AttributeError
       (lit "st.session_state has no attribute 'messages'")), w)
  end.

Definition get_ancy_initialized : M bool := fun w =>
  match ss_ancy_initialized (session_state w) with
  | Some b => (Ret b, w)
  | None =>
    (Raise (Exn AttributeError
       (lit "st.session_state has no attribute 'ancy_initialized'")), w)
  end.

Definition set_messages (l : loc) : M unit := fun w =>
  (Ret tt,
   set_session_state (fun s => mkSession (Some l) (ss_ancy_initialized s)) w).

Definition set_ancy_initialized (b : bool) : M unit := fun w =>
  (Ret tt, set_session_state (fun s => mkSession (ss_messages s) (Some b)) w).

Definition get_session_state : M SessionState := fun w =>
  (Ret (session_state w), w).

Definition initialize_session_state : M unit :=
  s ← get_session_state;
  match ss_messages s with
  | None => l ← alloc (OList []); set_messages l
  | Some _ => mret tt
  end;;
  s' ← get_session_state;
  match ss_ancy_initialized s' with
  | None => set_ancy_initialized false
  | Some _ => mret tt
  end.

Definition display_welcome_message : M unit := st welcome_message.

(** The [for] loop that shows the conversation. *)
Fixpoint display_messages (refs : list loc) : M unit :=
  match refs with
  | [] => mret tt
  | message :: rest =>
    role ← obj_getitem message (lit "role");
    (match role with
     | PStr r =>
       if bool_decide (r = lit "user") then
         content ← obj_getitem message (lit "content");
         st (user_bubble content)
       else
         content ← obj_getitem message (lit "content");
         st (ancy_bubble content)
     | _ =>
       content ← obj_getitem message (lit "content");
       st (ancy_bubble content)
     end);;
    display_messages rest
  end.

(** The branch of [main] taken when the key is missing or refused. *)
Definition setup_halt {A} : M A :=
  st (st_error (lit "❌ Groq API key not found or invalid!"));;
  st (st_info (lit "
        **To set up your API key:**
        1. Create a `.env` file in your project directory
        2. Add your Groq API key: `GROQ_API_KEY=your_api_key_here`
        3. Get your free API key at [console.groq.com](https://console.groq.com/)
        "));;
  leave StopScript.

(** [if not GROQ_API_KEY or not validate_api_key(GROQ_API_KEY): ...
    st.stop()]; past it the key is a string. *)
Definition check_api_key (GROQ_API_KEY : option str) : M str :=
  match GROQ_API_KEY with
  | None => setup_halt
  | Some key =>
    if negb (truthy (PStr key)) || negb (truthy (validate_api_key GROQ_API_KEY))
    then setup_halt
    else mret key
  end.

Section App.

Variable network : list Request -> Request -> post_outcome.

(** [if submit_button and user_input: ...] *)
Definition handle_user_input (ancy : loc) (wd : Widgets) : M unit :=
  if truthy (PBool (submit_button wd)) && truthy (PStr (user_input wd)) then
    stored ← get_messages;
    turn_user ← alloc (ODict (turn (lit "user") (PStr (user_input wd))));
    list_append stored turn_user;;
    st (spinner (lit "🌸 Ancy is crafting her response..."));;
    history ← get_messages;
    response ← chat network ancy (user_input wd) history;
    stored' ← get_messages;
    turn_ancy ← alloc (ODict (turn (lit "assistant") response));
    list_append stored' turn_ancy;;
    leave RerunScript
  else mret tt.

Definition main (GROQ_API_KEY : option str) (wd : Widgets) : M unit :=
  st set_page_config;;
  st markdown_style;;
  initialize_session_state;;
  key ← check_api_key GROQ_API_KEY;
  ancy ← alloc (OAncy key);
  initialized ← get_ancy_initialized;
  (if negb initialized then
     display_welcome_message;; set_ancy_initialized true
   else mret tt);;
  st clear_button;;
  (if clear_clicked wd then
     l ← alloc (OList []); set_messages l;; leave RerunScript
   else mret tt);;
  stored ← get_messages;
  items ← list_iter stored;
  display_messages items;;
  st divider;;
  st chat_form;;
  handle_user_input ancy wd;;
  st divider;;
  st footer.

End App.

(** * The vocabulary of the properties *)

(** [h] refers to a list object whose elements are the dicts [turns], in
    this order. *)
Definition history_at (σ : gmap loc obj) (h : loc)
    (turns : list (list (str * pyval))) : Prop :=
  exists refs, σ !! h = Some (OList refs) /\
               Forall2 (fun r t => σ !! r = Some (ODict t)) refs turns.

(** The last [n] elements of a sequence, all of them when it is shorter. *)
Definition last_n {A} (n : nat) (l : list A) : list A :=
  drop (length l - n) l.

(** The message list the specification describes: the preamble, the last
    ten turns of the history, the new user turn. *)
Definition expected_messages (history : list (list (str * pyval)))
    (user_text : str) : list (list (str * pyval)) :=
  turn (lit "system") (PStr SYSTEM_PROMPT)
    :: last_n 10 history ++ [turn (lit "user") (PStr user_text)].

(** The request carrying [messages] with the fixed generation parameters. *)
Definition request_with (api_key : str) (messages : list (list (str * pyval)))
  : Request :=
  mkRequest GROQ_API_URL
    [(lit "Authorization", lit "Bearer " ++ api_key);
     (lit "Content-Type", lit "application/json")]
    (PDict [(lit "model", PStr MODEL_NAME);
            (lit "messages", PList (PDict <$> messages));
            (lit "max_tokens", PInt 1000);
            (lit "temperature", PFloat float_0_8);
            (lit "stream", PBool false)])
    30.

(** The [messages] entry of a request body. *)
Definition request_messages (req : Request) : option pyval :=
  match req_json req with
  | PDict d => dict_get d (lit "messages")
  | _ => None
  end.

(** The preamble and the new user turn, as the client writes them. *)
Definition preamble : list (str * pyval) :=
  turn (lit "system") (PStr SYSTEM_PROMPT).

Definition user_turn (user_text : str) : list (str * pyval) :=
  turn (lit "user") (PStr user_text).

(** What the client makes of the outcome of the call. *)
Definition reply_to (o : post_outcome) : M pyval :=
  match o with
  | PostRaises t => handlers None (exn_of_transport_error t)
  | PostReturns r => fun w =>
    match extract_reply r w with
    | (Raise e, w') => handlers (Some r) e w'
    | x => x
    end
  end.

(** The status codes for which [raise_for_status] raises. *)
Definition is_http_error (status : Z) : bool :=
  (400 <=? status) && (status <? 600).

(** The text of the [HTTPError] that [raise_for_status] raises. *)
Definition http_error_text (r : Response) : str :=
  str_of_int (status_code r)
    ++ (if status_code r <? 500 then lit " Client Error: "
        else lit " Server Error: ")
    ++ reason r ++ lit " for url: " ++ url r.

(** [result["choices"][0]["message"]["content"]] *)
Definition reply_field (result : pyval) : exn + pyval :=
  match getitem result (SubStr (lit "choices")) with
  | inl e => inl e
  | inr choices =>
    match getitem choices (SubInt 0) with
    | inl e => inl e
    | inr choice =>
      match getitem choice (SubStr (lit "message")) with
      | inl e => inl e
      | inr message => getitem message (SubStr (lit "content"))
      end
    end
  end.

(** What the statements after the call give for a response. *)
Definition extract_reply_result (r : Response) : exn + pyval :=
  if is_http_error (status_code r) then
    inl (Exn HTTPError (http_error_text r))
  else
    match json_result r with
    | inl msg => inl (Exn JSONDecodeError msg)
    | inr body => reply_field body
    end.

(** The messages that stand for a failure. *)
Inductive mapped_message : str -> Prop :=
| authentication_message :
    mapped_message
      (lit "🔑 Authentication failed. Please check your Groq API key in .env file.")
| rate_limit_message :
    mapped_message
      (lit "⏳ Rate limit reached. Please wait a moment before trying again.")
| api_error_message (status : Z) (detail : str) :
    mapped_message
      (lit "🚫 API error (" ++ str_of_int status ++ lit "): " ++ detail)
| connectivity_message :
    mapped_message
      (lit "🌐 Connection error. Please check your internet connection.")
| timeout_message :
    mapped_message
      (lit "⏰ Request timed out. The API might be busy, please try again.")
| malformed_response_message :
    mapped_message (lit "📄 Invalid response format from API.")
| missing_field_message (field : str) :
    mapped_message (lit "🔍 Unexpected response structure: missing " ++ field)
| unexpected_error_message (detail : str) :
    mapped_message (lit "❌ Unexpected error: " ++ detail).

(** A JSON body in which a key on the way to
    [choices[0].message.content] is absent from its object. *)
Inductive lacks_field : pyval -> str -> Prop :=
| lacks_choices d :
    dict_get d (lit "choices") = None ->
    lacks_field (PDict d) (lit "choices")
| lacks_message d choices d0 :
    dict_get d (lit "choices") = Some choices ->
    getitem choices (SubInt 0) = inr (PDict d0) ->
    dict_get d0 (lit "message") = None ->
    lacks_field (PDict d) (lit "message")
| lacks_content d choices choice d1 :
    dict_get d (lit "choices") = Some choices ->
    getitem choices (SubInt 0) = inr choice ->
    getitem choice (SubStr (lit "message")) = inr (PDict d1) ->
    dict_get d1 (lit "content") = None ->
    lacks_field (PDict d) (lit "content").

(** ** Concrete inputs *)

Definition example_key : str := lit "gsk_live_0123456789abcdef".

Definition example_turns : list (list (str * pyval)) :=
  [turn (lit "user") (PStr (lit "Where should I go in spring?"));
   turn (lit "assistant") (PStr (lit "Kyoto, when the cherry trees bloom."))].

(** An instance at reference 1 and a stored conversation of two turns at
    reference 2. *)
Definition example_world : World :=
  mkWorld
    (list_to_map
       [(1%positive, OAncy example_key);
        (2%positive, OList [3%positive; 4%positive]);
        (3%positive,
         ODict (turn (lit "user") (PStr (lit "Where should I go in spring?"))));
        (4%positive,
         ODict (turn (lit "assistant")
                  (PStr (lit "Kyoto, when the cherry trees bloom."))))])
    [] [] (mkSession (Some 2%positive) (Some true)).

(** A service that answers every request with the same response. *)
Definition always (r : Response) : list Request -> Request -> post_outcome :=
  fun _ _ => PostReturns r.

Definition json_response (status : Z) (rsn : str) (body : pyval) : Response :=
  mkResponse status rsn GROQ_API_URL (inr body).

(** [{"choices":[{"message":{"content":"Bonjour!"}}]}] *)
Definition bonjour_body : pyval :=
  PDict [(lit "choices",
          PList [PDict [(lit "message",
                         PDict [(lit "content", PStr (lit "Bonjour!"))])]])].

(** [{"choices":[{"message":{"content":null}}]}] *)
Definition null_content_body : pyval :=
  PDict [(lit "choices",
          PList [PDict [(lit "message", PDict [(lit "content", PNone)])]])].

(** [{"choices":[]}] *)
Definition empty_choices_body : pyval := PDict [(lit "choices", PList [])].

(** [{"error":"busy"}] *)
Definition no_choices_body : pyval :=
  PDict [(lit "error", PStr (lit "busy"))].

(** A stored conversation of twelve turns, numbered 1 to 12, at
    reference 2; turn [i] is the dict at reference [i + 2]. *)
Definition numbered_turn (i : nat) : list (str * pyval) :=
  turn (lit "user") (PStr (str_of_int (Z.of_nat i))).

Definition long_world : World :=
  mkWorld
    (list_to_map
       ((1%positive, OAncy example_key)
        :: (2%positive, OList ((fun i => Pos.of_nat (i + 2)) <$> seq 1 12))
        :: ((fun i => (Pos.of_nat (i + 2), ODict (numbered_turn i)))
              <$> seq 1 12)))
    [] [] (mkSession (Some 2%positive) (Some true)).

(** A service whose every call fails in the same way. *)
Definition failing (t : transport_error)
  : list Request -> Request -> post_outcome :=
  fun _ _ => PostRaises t.

(** A world with nothing in it. *)
Definition empty_world : World := mkWorld ∅ [] [] (mkSession None None).

(** The result of [reply_to]; it does not depend on the world. *)
Definition reply_of (o : post_outcome) : outcome pyval :=
  (reply_to o empty_world).1.

(** ** The stored conversation *)

(** A stored turn, given by its role and its content. *)
Definition turn_of (rc : str * pyval) : list (str * pyval) := turn rc.1 rc.2.

(** What the display loop shows for a turn: the user's bubble for the role
    ["user"], Ancy's for any other. *)
Definition bubble_of (rc : str * pyval) : ui_call :=
  if bool_decide (rc.1 = lit "user") then user_bubble rc.2
  else ancy_bubble rc.2.

(** The conversation the session holds: nothing before
    [st.session_state.messages] is first set, the turns of the list it
    refers to afterwards. *)
Definition conversation_at (w : World) (rcs : list (str * pyval)) : Prop :=
  match ss_messages (session_state w) with
  | None => rcs = []
  | Some h => history_at (heap w) h (turn_of <$> rcs)
  end.

(** Conversations made of exchanges: a user turn holding a text, then an
    assistant turn. *)
Inductive exchanges : list (str * pyval) -> Prop :=
| exchanges_nil : exchanges []
| exchanges_snoc rcs text reply :
    exchanges rcs ->
    exchanges (rcs ++ [(lit "user", PStr text); (lit "assistant", reply)]).

(** The two turns of [example_world], by role and content. *)
Definition example_rcs : list (str * pyval) :=
  [(lit "user", PStr (lit "Where should I go in spring?"));
   (lit "assistant", PStr (lit "Kyoto, when the cherry trees bloom."))].

(** * Properties *)

Arguments lit : simpl never.
Arguments str_of_int : simpl never.

(** ** Text *)

Lemma lstrip_nil_iff (s : str) : lstrip s = [] <-> forallb isspace s = true.
Proof.
  induction s as [|c r IH]; simpl; [done|].
  destruct (isspace c); simpl; [done|]. split; discriminate.
Qed.

Lemma lstrip_head (s : str) (c : N) (r : str) :
  lstrip s = c :: r -> isspace c = false.
Proof.
  induction s as [|d t IH]; simpl; [discriminate|].
  destruct (isspace d) eqn:E; [done|]. intros [= -> _]. done.
Qed.

Lemma forallb_isspace_reverse (s : str) :
  forallb isspace (reverse s) = forallb isspace s.
Proof.
  induction s as [|c r IH]; [done|].
  rewrite reverse_cons, forallb_app, IH. simpl.
  rewrite andb_true_r. apply andb_comm.
Qed.

(** The trimmed form is empty exactly for the strings made of whitespace
    only. *)
Lemma strip_nil_iff (s : str) : strip s = [] <-> forallb isspace s = true.
Proof.
  unfold strip, rstrip. split.
  - intros H. apply (f_equal reverse) in H.
    rewrite reverse_involutive in H. change (reverse []) with (@nil N) in H.
    apply lstrip_nil_iff in H. rewrite forallb_isspace_reverse in H.
    destruct (lstrip s) as [|c r] eqn:E; [by apply lstrip_nil_iff|].
    apply lstrip_head in E. simpl in H. rewrite E in H. discriminate.
  - intros H. apply lstrip_nil_iff in H. by rewrite H.
Qed.

(** ** validate_api_key *)

(** C9: [validate_api_key] accepts exactly the keys that are present and
    non-empty, differ from the placeholder ["YOUR_GROQ_API_KEY_HERE"] and
    have more than 10 characters; an absent key, the empty key, the
    placeholder and every key of at most 10 characters are rejected. *)
Theorem validate_api_key_accepts_iff (api_key : option str) :
  truthy (validate_api_key api_key) = true <->
  exists s, api_key = Some s /\ s <> [] /\
            s <> lit "YOUR_GROQ_API_KEY_HERE" /\ (10 < length s)%nat.
Proof.
  destruct api_key as [s|]; simpl.
  - split.
    + intros H. exists s. split; [done|].
      destruct (decide (s = [])) as [->|Hne]; [discriminate H|].
      rewrite (bool_decide_eq_false_2 _ Hne) in H. simpl in H.
      destruct (decide (s = lit "YOUR_GROQ_API_KEY_HERE")) as [->|Hp].
      * rewrite bool_decide_eq_true_2 in H by done. discriminate H.
      * rewrite (bool_decide_eq_false_2 _ Hp) in H. simpl in H.
        apply Z.ltb_lt in H. repeat split; [done..|lia].
    + intros (s' & [= <-] & Hne & Hp & Hlen).
      rewrite (bool_decide_eq_false_2 _ Hne). simpl.
      rewrite (bool_decide_eq_false_2 _ Hp). simpl.
      apply Z.ltb_lt. lia.
  - split; [discriminate|]. intros (s & [=] & _).
Qed.

(** ** The store *)

Lemma slice_from_last_n {A} (l : list A) : slice_from l (-10) = last_n 10 l.
Proof.
  unfold slice_from, last_n. f_equal.
  change (-10 <? 0) with true. cbv beta iota. lia.
Qed.

Lemma length_last_n {A} (n : nat) (l : list A) :
  length (last_n n l) = Nat.min n (length l).
Proof. unfold last_n. rewrite length_drop. lia. Qed.

Lemma last_n_short {A} (n : nat) (l : list A) :
  (length l <= n)%nat -> last_n n l = l.
Proof.
  intros H. unfold last_n. replace (length l - n)%nat with 0%nat by lia. done.
Qed.

Lemma last_n_suffix {A} (n : nat) (l : list A) :
  take (length l - n) l ++ last_n n l = l.
Proof. apply take_drop. Qed.

Lemma Forall2_last_n {A B} (P : A -> B -> Prop) n l k :
  Forall2 P l k -> Forall2 P (last_n n l) (last_n n k).
Proof.
  intros H. unfold last_n. rewrite (Forall2_length _ _ _ H).
  by apply Forall2_drop.
Qed.

Lemma dump_items_dicts (σ : gmap loc obj) refs turns :
  Forall2 (fun r t => σ !! r = Some (ODict t)) refs turns ->
  dump_items σ refs = inr (PDict <$> turns).
Proof.
  induction 1 as [|r t refs turns Hr _ IH]; simpl; [done|].
  by rewrite Hr, IH.
Qed.

Lemma fresh_lookup (σ : gmap loc obj) : σ !! fresh (dom σ) = None.
Proof. apply not_elem_of_dom, is_fresh. Qed.

Lemma fresh_ne (σ : gmap loc obj) l o :
  σ !! l = Some o -> l <> fresh (dom σ).
Proof. intros H ->. rewrite fresh_lookup in H. discriminate. Qed.

(** ** Running the monad *)

Lemma bind_ret {A B} (m : M A) (f : A -> M B) w a w' :
  m w = (Ret a, w') -> (m ≫= f) w = f a w'.
Proof. intros H. unfold mbind, M_bind. by rewrite H. Qed.

Lemma bind_raise {A B} (m : M A) (f : A -> M B) w e w' :
  m w = (Raise e, w') -> (m ≫= f) w = (Raise e, w').
Proof. intros H. unfold mbind, M_bind. by rewrite H. Qed.

Lemma bind_control {A B} (m : M A) (f : A -> M B) w c w' :
  m w = (Control c, w') -> (m ≫= f) w = (Control c, w').
Proof. intros H. unfold mbind, M_bind. by rewrite H. Qed.

Lemma alloc_run o σ s u ss :
  alloc o (mkWorld σ s u ss)
  = (Ret (fresh (dom σ)), mkWorld (<[fresh (dom σ) := o]> σ) s u ss).
Proof. done. Qed.

Lemma get_api_key_run self k σ s u ss :
  σ !! self = Some (OAncy k) ->
  get_api_key self (mkWorld σ s u ss) = (Ret k, mkWorld σ s u ss).
Proof. intros H. unfold get_api_key. simpl. by rewrite H. Qed.

Lemma list_slice_from_run l xs start σ s u ss :
  σ !! l = Some (OList xs) ->
  list_slice_from l start (mkWorld σ s u ss)
  = (Ret (slice_from xs start), mkWorld σ s u ss).
Proof. intros H. unfold list_slice_from. simpl. by rewrite H. Qed.

Lemma list_extend_run l ys xs σ s u ss :
  σ !! l = Some (OList ys) ->
  list_extend l xs (mkWorld σ s u ss)
  = (Ret tt, mkWorld (<[l := OList (ys ++ xs)]> σ) s u ss).
Proof. intros H. unfold list_extend. simpl. by rewrite H. Qed.

Lemma list_append_run l ys x σ s u ss :
  σ !! l = Some (OList ys) ->
  list_append l x (mkWorld σ s u ss)
  = (Ret tt, mkWorld (<[l := OList (ys ++ [x])]> σ) s u ss).
Proof. intros H. unfold list_append. simpl. by rewrite H. Qed.

Lemma dump_list_run l refs turns σ s u ss :
  σ !! l = Some (OList refs) ->
  Forall2 (fun r t => σ !! r = Some (ODict t)) refs turns ->
  dump_list l (mkWorld σ s u ss)
  = (Ret (PList (PDict <$> turns)), mkWorld σ s u ss).
Proof.
  intros H Hrefs. unfold dump_list. simpl.
  by rewrite H, (dump_items_dicts _ _ _ Hrefs).
Qed.

(** ** The completion client *)

Section ClientProperties.

Variable network : list Request -> Request -> post_outcome.

(** Building the message list: three objects are created at unused
    references, and nothing else is written.  [σ2] is the store once the
    preamble and the new list exist, where the history is read. *)
Lemma make_api_request_build self k um h refs σ s u ss :
  σ !! self = Some (OAncy k) ->
  let l1 := fresh (dom σ) in
  let σ1 := <[l1 := ODict preamble]> σ in
  let l2 := fresh (dom σ1) in
  let σ2 := <[l2 := OList [l1]]> σ1 in
  σ2 !! h = Some (OList refs) ->
  exists l3 σ5,
    σ ⊆ σ5 /\
    σ5 !! l1 = Some (ODict preamble) /\
    σ5 !! l2 = Some (OList (([l1] ++ slice_from refs (-10)) ++ [l3])) /\
    σ5 !! l3 = Some (ODict (user_turn um)) /\
    _make_api_request network self um h (mkWorld σ s u ss) =
    try_except
      (requests_post network GROQ_API_URL
         [(lit "Authorization", lit "Bearer " ++ k);
          (lit "Content-Type", lit "application/json")]
         (mkPayload MODEL_NAME l2 1000 float_0_8 false) 30)
      extract_reply handlers (mkWorld σ5 s u ss).
Proof.
  intros Hself l1 σ1 l2 σ2 Hh.
  unfold _make_api_request.
  erewrite bind_ret by (by apply get_api_key_run).
  erewrite bind_ret by apply alloc_run.
  erewrite bind_ret by apply alloc_run.
  fold preamble l1 σ1 l2 σ2.
  erewrite bind_ret by (apply list_slice_from_run, Hh).
  erewrite bind_ret by (apply list_extend_run, lookup_insert_eq).
  set (σ3 := <[l2 := _]> σ2).
  erewrite bind_ret by apply alloc_run.
  fold (user_turn um).
  set (l3 := fresh (dom σ3)). set (σ4 := <[l3 := _]> σ3).
  assert (N21 : l1 <> l2).
  { apply (fresh_ne σ1 l1 (ODict preamble)), lookup_insert_eq. }
  assert (N32 : l2 <> l3).
  { eapply (fresh_ne σ3), lookup_insert_eq. }
  assert (N31 : l1 <> l3).
  { eapply (fresh_ne σ3). unfold σ3, σ2.
    rewrite !lookup_insert_ne by done. apply lookup_insert_eq. }
  erewrite bind_ret; cycle 1.
  { apply list_append_run. unfold σ4. rewrite lookup_insert_ne by done.
    apply lookup_insert_eq. }
  set (σ5 := <[l2 := _]> σ4).
  exists l3, σ5. split; [|split; [|split; [|split]]].
  - assert (F1 : σ !! l1 = None) by apply fresh_lookup.
    assert (F2 : σ !! l2 = None).
    { eapply lookup_weaken_None; [apply (fresh_lookup σ1)|].
      apply insert_subseteq, fresh_lookup. }
    assert (F3 : σ !! l3 = None).
    { eapply lookup_weaken_None; [apply (fresh_lookup σ3)|].
      unfold σ3, σ2, σ1. by repeat apply insert_subseteq_r. }
    unfold σ5, σ4, σ3, σ2, σ1. by repeat apply insert_subseteq_r.
  - unfold σ5, σ4, σ3, σ2, σ1.
    rewrite !lookup_insert_ne by done. apply lookup_insert_eq.
  - apply lookup_insert_eq.
  - unfold σ5, σ4. rewrite lookup_insert_ne by done. apply lookup_insert_eq.
  - reflexivity.
Qed.

(** A call with a well-formed history sends exactly one request, the one
    carrying [expected_messages], and answers with [reply_to] of what comes
    back. *)
Lemma make_api_request_run self k um h turns w :
  heap w !! self = Some (OAncy k) ->
  history_at (heap w) h turns ->
  exists σ',
    heap w ⊆ σ' /\
    _make_api_request network self um h w =
    reply_to
      (network (sent w) (request_with k (expected_messages turns um)))
      (mkWorld σ' (sent w ++ [request_with k (expected_messages turns um)])
         (ui_log w) (session_state w)).
Proof.
  intros Hself (refs & Hh & Hrefs).
  destruct w as [σ s u ss]; cbn [heap sent ui_log session_state] in *.
  destruct (make_api_request_build self k um h refs σ s u ss Hself)
    as (l3 & σ5 & H5 & L1 & L2 & L3 & ->).
  { eapply lookup_weaken; [exact Hh|].
    etrans; apply insert_subseteq, fresh_lookup. }
  exists σ5. split; [exact H5|].
  unfold try_except, requests_post, dump_payload.
  erewrite bind_ret; cycle 1.
  { erewrite bind_ret; cycle 1.
    { cbn [p_messages].
      eapply dump_list_run with (turns := expected_messages turns um);
        [exact L2|].
      unfold expected_messages. constructor; [exact L1|].
      apply Forall2_app.
      - rewrite slice_from_last_n. apply Forall2_last_n.
        eapply Forall2_impl; [exact Hrefs|]. intros r t Hr.
        eapply lookup_weaken; [exact Hr|exact H5].
      - constructor; [exact L3|constructor]. }
    reflexivity. }
  unfold reply_to, request_with, set_sent.
  cbn [heap sent ui_log session_state
       p_model p_max_tokens p_temperature p_stream].
  destruct (network s _); reflexivity.
Qed.

End ClientProperties.

(** ** Reading the reply and mapping the failures *)

Lemma issubclass_Exception (c : exn_class) : issubclass c Exception_ = true.
Proof. by destruct c. Qed.

(** Evaluates the class tests on known classes. *)
Ltac eval_issubclass :=
  unfold isinstance; cbn [exn_cls];
  repeat match goal with
  | |- context [issubclass ?c ?d] =>
    let b := eval vm_compute in (issubclass c d) in
    change (issubclass c d) with b
  end;
  cbv iota.

Lemma truthy_app_cons (a b d : str) (c : N) :
  truthy (PStr (a ++ (c :: b) ++ d)) = true.
Proof.
  unfold truthy. rewrite bool_decide_eq_false_2; [done|].
  intros H. by apply app_nil in H as [_ ?].
Qed.

Lemma raise_for_status_run (r : Response) (w : World) :
  raise_for_status r w =
  if is_http_error (status_code r)
  then (Raise (Exn HTTPError (http_error_text r)), w)
  else (Ret tt, w).
Proof.
  unfold raise_for_status, is_http_error, http_error_text.
  change (lit " Client Error: ") with (32%N :: lit "Client Error: ").
  change (lit " Server Error: ") with (32%N :: lit "Server Error: ").
  destruct (400 <=? status_code r) eqn:E1; cbn [andb].
  - destruct (status_code r <? 500) eqn:E2.
    + assert ((status_code r <? 600) = true) as -> by lia.
      cbv iota. by rewrite truthy_app_cons.
    + destruct (500 <=? status_code r) eqn:E3; [|lia]. cbn [andb].
      destruct (status_code r <? 600); [by rewrite truthy_app_cons|done].
  - destruct (500 <=? status_code r) eqn:E3; [lia|done].
Qed.

Lemma subscr_run (v : pyval) (k : subscript) (w : World) :
  subscr v k w =
  match getitem v k with inl e => (Raise e, w) | inr x => (Ret x, w) end.
Proof. unfold subscr, of_sum. by destruct (getitem v k). Qed.

Lemma extract_reply_run (r : Response) (w : World) :
  extract_reply r w =
  match extract_reply_result r with
  | inl e => (Raise e, w)
  | inr v => (Ret v, w)
  end.
Proof.
  unfold extract_reply, extract_reply_result, mbind, M_bind.
  rewrite raise_for_status_run.
  destruct (is_http_error (status_code r)); [done|].
  unfold response_json, reply_field.
  destruct (json_result r) as [msg|body]; [done|].
  unfold mret, M_ret.
  rewrite subscr_run. destruct (getitem body _) as [|choices]; [done|].
  rewrite subscr_run. destruct (getitem choices _) as [|choice]; [done|].
  rewrite subscr_run. destruct (getitem choice _) as [|message]; [done|].
  apply subscr_run.
Qed.

(** With [response] bound, every exception is turned into a message. *)
Lemma handlers_bound (r : Response) (e : exn) (w : World) :
  exists m, handlers (Some r) e w = (Ret (PStr m), w) /\ mapped_message m.
Proof.
  unfold handlers.
  destruct (isinstance e HTTPError).
  { destruct (status_code r =? 401);
      [eexists; split; [reflexivity|apply authentication_message]|].
    destruct (status_code r =? 429);
      [eexists; split; [reflexivity|apply rate_limit_message]|].
    eexists; split; [reflexivity|apply api_error_message]. }
  destruct (isinstance e ConnectionError);
    [eexists; split; [reflexivity|apply connectivity_message]|].
  destruct (isinstance e Timeout);
    [eexists; split; [reflexivity|apply timeout_message]|].
  destruct (isinstance e JSONDecodeError);
    [eexists; split; [reflexivity|apply malformed_response_message]|].
  destruct (isinstance e KeyError);
    [eexists; split; [reflexivity|apply missing_field_message]|].
  unfold isinstance. rewrite issubclass_Exception.
  eexists; split; [reflexivity|apply unexpected_error_message].
Qed.

(** A failure of the call itself is turned into a message as well. *)
Lemma handlers_unbound (t : transport_error) (w : World) :
  exists m, handlers None (exn_of_transport_error t) w = (Ret (PStr m), w)
            /\ mapped_message m.
Proof.
  destruct t; unfold handlers, exn_of_transport_error; eval_issubclass;
    (eexists; split; [reflexivity|]).
  - apply connectivity_message.
  - apply connectivity_message.
  - apply timeout_message.
  - apply unexpected_error_message.
Qed.

(** The outcome of a call is always a returned value: a failure message, or
    the content field of a response that is not an error. *)
Lemma reply_to_returns (o : post_outcome) (w : World) :
  exists v, reply_to o w = (Ret v, w) /\
    ((exists m, v = PStr m /\ mapped_message m) \/
     (exists r body, o = PostReturns r /\
        is_http_error (status_code r) = false /\
        json_result r = inr body /\ reply_field body = inr v)).
Proof.
  destruct o as [t|r]; unfold reply_to.
  - destruct (handlers_unbound t w) as (m & -> & Hm).
    exists (PStr m). split; [done|]. left. by exists m.
  - rewrite extract_reply_run.
    destruct (extract_reply_result r) as [e|v] eqn:E.
    + destruct (handlers_bound r e w) as (m & -> & Hm).
      exists (PStr m). split; [done|]. left. by exists m.
    + exists v. split; [done|]. right. exists r.
      unfold extract_reply_result in E.
      destruct (is_http_error (status_code r)); [discriminate|].
      destruct (json_result r) as [|body]; [discriminate|].
      by exists body.
Qed.

(** ** chat *)

(** The text of the preamble. *)
Lemma SYSTEM_PROMPT_text :
  SYSTEM_PROMPT = lit "
You are Ancy, a warm and inspiring AI travel guide with a poetic soul and adventurous spirit.

Your characteristics:
- Speak with beautiful, flowing language and travel metaphors
- Always remain enthusiastic, encouraging, and wise
- Offer detailed advice about destinations, travel tips, cultural insights, and emotional support
- Use vivid imagery of places, journeys, and discoveries in your responses
- Be inspiring and uplifting while providing practical, actionable travel wisdom
- Share stories and insights that make travelers feel excited about their journeys
- Keep responses engaging but focused (3-6 sentences typically)

Remember: You are a companion for wanderers, dreamers, and adventurers on their life journeys.
".
Proof. unfold SYSTEM_PROMPT. reflexivity. Qed.

Section ChatProperties.

Variable network : list Request -> Request -> post_outcome.

Lemma chat_nonblank self ui h w :
  strip ui <> [] -> chat network self ui h w = _make_api_request network self ui h w.
Proof.
  intros H. unfold chat, truthy. by rewrite (bool_decide_eq_false_2 _ H).
Qed.

Lemma chat_blank self ui h w :
  strip ui = [] ->
  chat network self ui h w =
    (Ret (PStr (lit "🤔 I sense the quiet before an adventure... What's stirring in your traveler's heart?")),
     w).
Proof. intros H. unfold chat. by rewrite H. Qed.

Lemma reply_to_world (o : post_outcome) (w : World) : (reply_to o w).2 = w.
Proof. by destruct (reply_to_returns o w) as (v & -> & _). Qed.

(** C3: when the trimmed text is empty, [chat] returns the fixed prompt for
    input and leaves the world as it was: no request is sent, whatever the
    history argument is. *)
Theorem chat_blank_input (self : loc) (user_text : str) (history : loc)
    (w : World) :
  strip user_text = [] ->
  chat network self user_text history w =
    (Ret (PStr (lit "🤔 I sense the quiet before an adventure... What's stirring in your traveler's heart?")),
     w)
  /\ sent (chat network self user_text history w).2 = sent w.
Proof.
  intros H. by rewrite (chat_blank _ _ _ _ H).
Qed.

(** C1: for a text whose trimmed form is not empty, [chat] sends one
    request whose [messages] are the preamble (the dict with role
    ["system"] and the fixed prompt as content), then the last
    [min 10 (length history)] turns of the history in order, then the dict
    with role ["user"] and the text as content: the whole history when it
    has at most 10 turns, its last 10 turns otherwise. *)
Theorem chat_request_messages (self : loc) (api_key : str) (user_text : str)
    (history : loc) (turns : list (list (str * pyval))) (w : World) :
  heap w !! self = Some (OAncy api_key) ->
  history_at (heap w) history turns ->
  strip user_text <> [] ->
  exists req middle,
    sent (chat network self user_text history w).2 = sent w ++ [req] /\
    request_messages req =
      Some (PList (PDict <$>
        [(lit "role", PStr (lit "system"));
         (lit "content", PStr (lit "
You are Ancy, a warm and inspiring AI travel guide with a poetic soul and adventurous spirit.

Your characteristics:
- Speak with beautiful, flowing language and travel metaphors
- Always remain enthusiastic, encouraging, and wise
- Offer detailed advice about destinations, travel tips, cultural insights, and emotional support
- Use vivid imagery of places, journeys, and discoveries in your responses
- Be inspiring and uplifting while providing practical, actionable travel wisdom
- Share stories and insights that make travelers feel excited about their journeys
- Keep responses engaging but focused (3-6 sentences typically)

Remember: You are a companion for wanderers, dreamers, and adventurers on their life journeys.
"))]
          :: middle
          ++ [[(lit "role", PStr (lit "user"));
               (lit "content", PStr user_text)]])) /\
    length middle = Nat.min 10 (length turns) /\
    (exists before, turns = before ++ middle) /\
    ((length turns <= 10)%nat -> middle = turns) /\
    ((10 < length turns)%nat -> middle = drop (length turns - 10) turns).
Proof.
  intros Hself Hh Hne. rewrite (chat_nonblank _ _ _ _ Hne).
  destruct (make_api_request_run network self api_key user_text history
              turns w Hself Hh) as (σ' & _ & ->).
  rewrite reply_to_world. cbn [sent].
  exists (request_with api_key (expected_messages turns user_text)),
         (last_n 10 turns).
  split; [done|]. split; [rewrite <- SYSTEM_PROMPT_text; reflexivity|].
  split; [apply length_last_n|].
  split; [by exists (take (length turns - 10) turns); rewrite last_n_suffix|].
  split; [apply last_n_short|]. done.
Qed.

(** C2, as the code has it: whatever the call gives, [chat] returns a value
    and does not raise.  The value is the prompt for input, or one of the
    failure messages, or the content field of a response that is not an
    error; that field is returned as it is, so the value is a string
    whenever the field holds one. *)
Theorem chat_returns (self : loc) (api_key : str) (user_text : str)
    (history : loc) (turns : list (list (str * pyval))) (w : World) :
  heap w !! self = Some (OAncy api_key) ->
  history_at (heap w) history turns ->
  exists v,
    (chat network self user_text history w).1 = Ret v /\
    ((exists m, v = PStr m /\
        (m = lit "🤔 I sense the quiet before an adventure... What's stirring in your traveler's heart?"
         \/ mapped_message m)) \/
     (exists r body,
        network (sent w)
          (request_with api_key (expected_messages turns user_text))
          = PostReturns r /\
        is_http_error (status_code r) = false /\
        json_result r = inr body /\
        reply_field body = inr v)).
Proof.
  intros Hself Hh.
  destruct (decide (strip user_text = [])) as [Hb|Hne].
  - rewrite (chat_blank _ _ _ _ Hb).
    eexists. split; [reflexivity|]. left. eexists. split; [reflexivity|].
    by left.
  - rewrite (chat_nonblank _ _ _ _ Hne).
    destruct (make_api_request_run network self api_key user_text history
                turns w Hself Hh) as (σ' & _ & ->).
    match goal with |- context [reply_to ?o ?w'] =>
      destruct (reply_to_returns o w') as (v & -> & Hv) end.
    exists v. split; [done|].
    destruct Hv as [(m & -> & Hm)|(r & body & Hr & He & Hj & Hf)].
    + left. exists m. split; [done|]. by right.
    + right. by exists r, body.
Qed.

(** The run of a call with a text that is not blank, in one step. *)
Lemma chat_run self k ui h turns w :
  heap w !! self = Some (OAncy k) ->
  history_at (heap w) h turns ->
  strip ui <> [] ->
  exists w',
    chat network self ui h w =
    reply_to (network (sent w) (request_with k (expected_messages turns ui)))
      w'.
Proof.
  intros Hself Hh Hne. rewrite (chat_nonblank _ _ _ _ Hne).
  destruct (make_api_request_run network self k ui h turns w Hself Hh)
    as (σ' & _ & ->).
  by eexists.
Qed.

Lemma reply_to_http_error (r : Response) (w : World) :
  is_http_error (status_code r) = true ->
  reply_to (PostReturns r) w =
  handlers (Some r) (Exn HTTPError (http_error_text r)) w.
Proof.
  intros H. unfold reply_to. rewrite extract_reply_run.
  unfold extract_reply_result. by rewrite H.
Qed.

Lemma reply_to_body (r : Response) (body : pyval) (w : World) :
  is_http_error (status_code r) = false ->
  json_result r = inr body ->
  reply_to (PostReturns r) w =
  match reply_field body with
  | inl e => handlers (Some r) e w
  | inr v => (Ret v, w)
  end.
Proof.
  intros H Hj. unfold reply_to. rewrite extract_reply_run.
  unfold extract_reply_result. rewrite H, Hj. by destruct (reply_field body).
Qed.

(** C4: for a response with an HTTP error status (the 4xx and 5xx codes,
    for which [raise_for_status] raises), [chat] returns the
    authentication message for 401, the rate-limit message for 429, and for
    any other code the API-error message that shows the code; it does not
    raise. *)
Theorem chat_http_error (self : loc) (api_key : str) (user_text : str)
    (history : loc) (turns : list (list (str * pyval))) (w : World)
    (r : Response) :
  heap w !! self = Some (OAncy api_key) ->
  history_at (heap w) history turns ->
  strip user_text <> [] ->
  network (sent w) (request_with api_key (expected_messages turns user_text))
    = PostReturns r ->
  400 <= status_code r < 600 ->
  (status_code r = 401 ->
   (chat network self user_text history w).1 =
     Ret (PStr (lit "🔑 Authentication failed. Please check your Groq API key in .env file."))) /\
  (status_code r = 429 ->
   (chat network self user_text history w).1 =
     Ret (PStr (lit "⏳ Rate limit reached. Please wait a moment before trying again."))) /\
  (status_code r <> 401 -> status_code r <> 429 ->
   (chat network self user_text history w).1 =
     Ret (PStr (lit "🚫 API error (" ++ str_of_int (status_code r)
                  ++ lit "): " ++ http_error_text r))).
Proof.
  intros Hself Hh Hne Hnet Hst.
  destruct (chat_run self api_key user_text history turns w Hself Hh Hne)
    as (w' & ->).
  rewrite Hnet, reply_to_http_error by (unfold is_http_error; lia).
  unfold handlers. eval_issubclass. cbn [exn_str].
  repeat split.
  - intros ->. reflexivity.
  - intros ->. reflexivity.
  - intros H1 H2.
    destruct (status_code r =? 401) eqn:E1; [lia|].
    destruct (status_code r =? 429) eqn:E2; [lia|]. reflexivity.
Qed.

(** C5: for a 2xx response whose JSON body is an object with a list under
    ["choices"], the first element of that list an object with an object
    under ["message"], and that one with a text under ["content"], [chat]
    returns that text as it is. *)
Theorem chat_success (self : loc) (api_key : str) (user_text : str)
    (history : loc) (turns : list (list (str * pyval))) (w : World)
    (r : Response) (d c m : list (str * pyval)) (others : list pyval)
    (text : str) :
  heap w !! self = Some (OAncy api_key) ->
  history_at (heap w) history turns ->
  strip user_text <> [] ->
  network (sent w) (request_with api_key (expected_messages turns user_text))
    = PostReturns r ->
  200 <= status_code r < 300 ->
  json_result r = inr (PDict d) ->
  dict_get d (lit "choices") = Some (PList (PDict c :: others)) ->
  dict_get c (lit "message") = Some (PDict m) ->
  dict_get m (lit "content") = Some (PStr text) ->
  (chat network self user_text history w).1 = Ret (PStr text).
Proof.
  intros Hself Hh Hne Hnet Hst Hj Hd Hc Hm.
  destruct (chat_run self api_key user_text history turns w Hself Hh Hne)
    as (w' & ->).
  rewrite Hnet, (reply_to_body r (PDict d))
    by (done || unfold is_http_error; lia).
  unfold reply_field. unfold getitem at 1. rewrite Hd.
  unfold getitem at 1. unfold seq_index. cbn [length].
  change (0 <? 0) with false. cbv iota.
  change ((0 <=? 0) && (0 <? Z.of_nat (S (length others)))) with
    (0 <? Z.of_nat (S (length others))).
  replace (0 <? Z.of_nat (S (length others))) with true
    by (symmetry; apply Z.ltb_lt; lia).
  change (Z.to_nat 0) with 0%nat. cbn [lookup list_lookup].
  unfold getitem at 1. rewrite Hc. unfold getitem. by rewrite Hm.
Qed.

End ChatProperties.

(** ** Bodies that lack a field *)

Lemma reply_field_lacks (body : pyval) (field : str) :
  lacks_field body field -> reply_field body = inl (mkKeyError (SubStr field)).
Proof.
  unfold reply_field.
  destruct 1 as [d H|d choices d0 H H0 H1|d choices choice d1 H H0 H1 H2].
  - unfold getitem at 1. by rewrite H.
  - unfold getitem at 1. rewrite H, H0. unfold getitem. by rewrite H1.
  - unfold getitem at 1. rewrite H, H0, H1. unfold getitem. by rewrite H2.
Qed.

Lemma reply_field_no_choice (d : list (str * pyval)) :
  dict_get d (lit "choices") = Some (PList []) ->
  reply_field (PDict d) = inl (Exn IndexError (lit "list index out of range")).
Proof. intros H. unfold reply_field, getitem at 1. by rewrite H. Qed.

Section MissingField.

Variable network : list Request -> Request -> post_outcome.

(** C6, as the code has it: for a 2xx response whose JSON body lacks the
    key ["choices"], ["message"] or ["content"] in the object where it is
    looked up, [chat] returns the missing-field message naming that key
    (between single quotes); for a body whose [choices] list is empty it
    returns the unexpected-error message "list index out of range". *)
Theorem chat_missing_field (self : loc) (api_key : str) (user_text : str)
    (history : loc) (turns : list (list (str * pyval))) (w : World)
    (r : Response) (body : pyval) :
  heap w !! self = Some (OAncy api_key) ->
  history_at (heap w) history turns ->
  strip user_text <> [] ->
  network (sent w) (request_with api_key (expected_messages turns user_text))
    = PostReturns r ->
  200 <= status_code r < 300 ->
  json_result r = inr body ->
  (forall field, lacks_field body field ->
   (chat network self user_text history w).1 =
     Ret (PStr (lit "🔍 Unexpected response structure: missing "
                  ++ lit "'" ++ field ++ lit "'"))) /\
  (forall d, body = PDict d ->
   dict_get d (lit "choices") = Some (PList []) ->
   (chat network self user_text history w).1 =
     Ret (PStr (lit "❌ Unexpected error: " ++ lit "list index out of range"))).
Proof.
  intros Hself Hh Hne Hnet Hst Hj.
  destruct (chat_run network self api_key user_text history turns w
              Hself Hh Hne) as (w' & ->).
  rewrite Hnet, (reply_to_body r body) by (done || unfold is_http_error; lia).
  split.
  - intros field Hf. rewrite (reply_field_lacks _ _ Hf).
    unfold handlers, mkKeyError. eval_issubclass. reflexivity.
  - intros d -> Hd. rewrite (reply_field_no_choice _ Hd).
    unfold handlers. eval_issubclass. reflexivity.
Qed.

End MissingField.

(** ** The history is only read *)

Lemma handlers_world (o : option Response) (e : exn) (w : World) :
  (handlers o e w).2 = w.
Proof.
  unfold handlers.
  destruct (isinstance e HTTPError).
  { destruct o as [r|]; [|done].
    destruct (status_code r =? 401); [done|].
    by destruct (status_code r =? 429). }
  destruct (isinstance e ConnectionError); [done|].
  destruct (isinstance e Timeout); [done|].
  destruct (isinstance e JSONDecodeError); [done|].
  destruct (isinstance e KeyError); [done|].
  by destruct (isinstance e Exception_).
Qed.

Lemma dump_list_world (l : loc) (w : World) : (dump_list l w).2 = w.
Proof.
  unfold dump_list. destruct (heap w !! l) as [[refs| |]|]; try done.
  by destruct (dump_items (heap w) refs).
Qed.

Section Frame.

Variable network : list Request -> Request -> post_outcome.

Lemma requests_post_heap url headers json timeout (w : World) :
  heap (requests_post network url headers json timeout w).2 = heap w.
Proof.
  unfold requests_post, dump_payload, mbind, M_bind.
  pose proof (dump_list_world (p_messages json) w) as Hw.
  destruct (dump_list (p_messages json) w) as [[v|e|c] w1];
    cbn [snd] in Hw; subst w1; try done.
  unfold mret, M_ret. by destruct (network (sent w) _).
Qed.

Lemma try_block_heap url headers json timeout (w : World) :
  heap (try_except (requests_post network url headers json timeout)
          extract_reply handlers w).2 = heap w.
Proof.
  unfold try_except.
  pose proof (requests_post_heap url headers json timeout w) as Hw.
  destruct (requests_post network url headers json timeout w)
    as [[r|e|c] w1]; cbn [snd] in Hw; [| |done].
  - rewrite extract_reply_run.
    destruct (extract_reply_result r); [|done].
    by rewrite handlers_world.
  - by rewrite handlers_world.
Qed.

Lemma make_api_request_heap self um h (w : World) :
  heap w ⊆ heap (_make_api_request network self um h w).2.
Proof.
  destruct w as [σ s u ss]. cbn [heap].
  destruct (σ !! self) as [o|] eqn:Hself; cycle 1.
  { unfold _make_api_request, mbind, M_bind, get_api_key. cbn [heap].
    by rewrite Hself. }
  destruct o as [| |k];
    try (unfold _make_api_request, mbind, M_bind, get_api_key; cbn [heap];
         by rewrite Hself).
  set (l1 := fresh (dom σ)).
  set (σ1 := <[l1 := ODict preamble]> σ).
  set (l2 := fresh (dom σ1)).
  set (σ2 := <[l2 := OList [l1]]> σ1).
  assert (H2 : σ ⊆ σ2) by (etrans; apply insert_subseteq, fresh_lookup).
  destruct (σ2 !! h) as [o|] eqn:Hh.
  - destruct o as [refs| |].
    + destruct (make_api_request_build network self k um h refs σ s u ss
                  Hself Hh) as (l3 & σ5 & H5 & _ & _ & _ & ->).
      by rewrite try_block_heap.
    + unfold _make_api_request.
      erewrite bind_ret by (by apply get_api_key_run).
      erewrite bind_ret by apply alloc_run.
      erewrite bind_ret by apply alloc_run.
      fold preamble l1 σ1 l2 σ2.
      erewrite bind_raise;
        [|unfold list_slice_from; cbn [heap]; by rewrite Hh].
      exact H2.
    + unfold _make_api_request.
      erewrite bind_ret by (by apply get_api_key_run).
      erewrite bind_ret by apply alloc_run.
      erewrite bind_ret by apply alloc_run.
      fold preamble l1 σ1 l2 σ2.
      erewrite bind_raise;
        [|unfold list_slice_from; cbn [heap]; by rewrite Hh].
      exact H2.
  - unfold _make_api_request.
    erewrite bind_ret by (by apply get_api_key_run).
    erewrite bind_ret by apply alloc_run.
    erewrite bind_ret by apply alloc_run.
    fold preamble l1 σ1 l2 σ2.
    erewrite bind_raise;
      [|unfold list_slice_from; cbn [heap]; by rewrite Hh].
    exact H2.
Qed.

Lemma chat_heap self ui h (w : World) :
  heap w ⊆ heap (chat network self ui h w).2.
Proof.
  unfold chat. destruct (negb _); [done|]. apply make_api_request_heap.
Qed.

Lemma history_at_weaken σ σ' h turns :
  σ ⊆ σ' -> history_at σ h turns -> history_at σ' h turns.
Proof.
  intros Hsub (refs & Hh & Hrefs). exists refs. split.
  - eapply lookup_weaken; [exact Hh|exact Hsub].
  - eapply Forall2_impl; [exact Hrefs|]. intros r t Hr.
    eapply lookup_weaken; [exact Hr|exact Hsub].
Qed.

(** C8: a call to [_make_api_request] or [chat] leaves every object that
    existed before it as it was; in particular the history list keeps its
    elements, in their order, and each element keeps its contents.  The
    objects the call creates are new ones. *)
Theorem history_unchanged (self : loc) (user_text : str) (history : loc)
    (w : World) :
  (forall l o, heap w !! l = Some o ->
     heap (_make_api_request network self user_text history w).2 !! l = Some o
     /\ heap (chat network self user_text history w).2 !! l = Some o) /\
  (forall turns, history_at (heap w) history turns ->
     history_at (heap (_make_api_request network self user_text history w).2)
       history turns
     /\ history_at (heap (chat network self user_text history w).2)
          history turns).
Proof.
  split.
  - intros l o H. split; (eapply lookup_weaken; [exact H|]).
    + apply make_api_request_heap.
    + apply chat_heap.
  - intros turns H. split; (eapply history_at_weaken; [|exact H]).
    + apply make_api_request_heap.
    + apply chat_heap.
Qed.

End Frame.

(** ** The submission handler *)

Lemma get_messages_run l σ s u ss :
  ss_messages ss = Some l ->
  get_messages (mkWorld σ s u ss) = (Ret l, mkWorld σ s u ss).
Proof. intros H. unfold get_messages. cbn [session_state]. by rewrite H. Qed.

Lemma st_run c σ s u ss :
  st c (mkWorld σ s u ss) = (Ret tt, mkWorld σ s (u ++ [c]) ss).
Proof. done. Qed.

(** Appending a new dict to a stored list: the list holds one more turn,
    the last one, and no other object changes. *)
Lemma history_at_append σ h refs turns t :
  σ !! h = Some (OList refs) ->
  Forall2 (fun r t' => σ !! r = Some (ODict t')) refs turns ->
  history_at (<[h := OList (refs ++ [fresh (dom σ)])]>
                (<[fresh (dom σ) := ODict t]> σ)) h (turns ++ [t]).
Proof.
  intros Hh Hrefs. set (d := fresh (dom σ)).
  assert (Hd : h <> d) by (eapply fresh_ne; exact Hh).
  exists (refs ++ [d]). split; [apply lookup_insert_eq|].
  apply Forall2_app.
  - eapply Forall2_impl; [exact Hrefs|]. intros r t' Hr.
    assert (r <> h) by (intros ->; rewrite Hh in Hr; discriminate).
    assert (r <> d) by (eapply fresh_ne; exact Hr).
    by rewrite !lookup_insert_ne.
  - constructor; [|constructor].
    rewrite lookup_insert_ne by done. apply lookup_insert_eq.
Qed.

Lemma last_n_snoc {A} (n : nat) (l : list A) (x : A) :
  last_n (S n) (l ++ [x]) = last_n n l ++ [x].
Proof.
  unfold last_n. rewrite length_app. cbn [length].
  replace (length l + 1 - S n)%nat with (length l - n)%nat by lia.
  apply drop_app_le. lia.
Qed.

Section Submission.

Variable network : list Request -> Request -> post_outcome.

(** C7: when a submission is handled, the new user turn (the dict with
    role ["user"] and the submitted text as content) is appended to the
    stored conversation first, and [chat] is then called with that stored
    list as its history, which already ends with the new turn.  So when a
    request is sent (the text is not blank), its [messages] end with the
    new user turn twice; when the stored list has at most 10 turns after
    the append, they are the preamble, the whole list, and the new turn
    again. *)
Theorem submission_repeats_user_turn (ancy : loc) (api_key : str)
    (wd : Widgets) (stored : loc) (turns : list (list (str * pyval)))
    (w : World) :
  heap w !! ancy = Some (OAncy api_key) ->
  ss_messages (session_state w) = Some stored ->
  history_at (heap w) stored turns ->
  submit_button wd = true ->
  user_input wd <> [] ->
  let new_turn :=
    [(lit "role", PStr (lit "user"));
     (lit "content", PStr (user_input wd))] in
  exists w1,
    handle_user_input network ancy wd w =
      (response ← chat network ancy (user_input wd) stored;
       stored' ← get_messages;
       turn_ancy ← alloc (ODict [(lit "role", PStr (lit "assistant"));
                                 (lit "content", response)]);
       list_append stored' turn_ancy;;
       leave RerunScript) w1 /\
    ss_messages (session_state w1) = Some stored /\
    history_at (heap w1) stored (turns ++ [new_turn]) /\
    sent w1 = sent w /\
    (strip (user_input wd) <> [] ->
     exists req msgs,
       sent (handle_user_input network ancy wd w).2 = sent w ++ [req] /\
       request_messages req = Some (PList (PDict <$> msgs)) /\
       (exists before, msgs = before ++ [new_turn; new_turn]) /\
       ((length (turns ++ [new_turn]) <= 10)%nat ->
        msgs = [(lit "role", PStr (lit "system"));
                (lit "content", PStr SYSTEM_PROMPT)]
                 :: (turns ++ [new_turn]) ++ [new_turn])).
Proof.
  intros Hancy Hss Hh Hsub Hin.
  change (
  let new_turn := turn (lit "user") (PStr (user_input wd)) in
    exists w1,
      handle_user_input network ancy wd w =
        (response ← chat network ancy (user_input wd) stored;
         stored' ← get_messages;
         turn_ancy ← alloc (ODict (turn (lit "assistant") response));
         list_append stored' turn_ancy;;
         leave RerunScript) w1 /\
      ss_messages (session_state w1) = Some stored /\
      history_at (heap w1) stored (turns ++ [new_turn]) /\
      sent w1 = sent w /\
      (strip (user_input wd) <> [] ->
       exists req msgs,
         sent (handle_user_input network ancy wd w).2 = sent w ++ [req] /\
         request_messages req = Some (PList (PDict <$> msgs)) /\
         (exists before, msgs = before ++ [new_turn; new_turn]) /\
         ((length (turns ++ [new_turn]) <= 10)%nat ->
          msgs = turn (lit "system") (PStr SYSTEM_PROMPT)
                   :: (turns ++ [new_turn]) ++ [new_turn]))).
  intros new_turn.
  destruct w as [σ s u ss]. cbn [heap sent session_state] in *.
  destruct Hh as (refs & Hl & Hrefs).
  pose proof (history_at_append σ stored refs turns new_turn Hl Hrefs) as Hh1.
  set (d := fresh (dom σ)) in *.
  set (σ1 := <[d := ODict new_turn]> σ) in *.
  set (σ2 := <[stored := OList (refs ++ [d])]> σ1) in *.
  assert (Hd : stored <> d) by (eapply fresh_ne; exact Hl).
  assert (Hrun : handle_user_input network ancy wd (mkWorld σ s u ss) =
      (response ← chat network ancy (user_input wd) stored;
       stored' ← get_messages;
       turn_ancy ← alloc (ODict (turn (lit "assistant") response));
       list_append stored' turn_ancy;;
       leave RerunScript)
      (mkWorld σ2 s
         (u ++ [spinner (lit "🌸 Ancy is crafting her response...")]) ss)).
  { unfold handle_user_input. rewrite Hsub. unfold truthy.
    rewrite (bool_decide_eq_false_2 _ Hin). cbn [andb negb].
    erewrite bind_ret by (by apply get_messages_run).
    erewrite bind_ret by apply alloc_run.
    erewrite bind_ret; cycle 1.
    { apply list_append_run. rewrite lookup_insert_ne by done. exact Hl. }
    erewrite bind_ret by apply st_run.
    erewrite bind_ret by (by apply get_messages_run).
    reflexivity. }
  eexists. split; [exact Hrun|]. cbn [heap sent session_state].
  split; [done|]. split; [exact Hh1|]. split; [done|].
  intros Hne. rewrite Hrun.
  assert (Hancy2 : σ2 !! ancy = Some (OAncy api_key)).
  { assert (ancy <> stored) by (intros ->; rewrite Hl in Hancy; discriminate).
    assert (ancy <> d) by (eapply fresh_ne; exact Hancy).
    unfold σ2, σ1. by rewrite !lookup_insert_ne. }
  unfold mbind at 1. unfold M_bind at 1.
  rewrite (chat_nonblank _ _ _ _ _ Hne).
  match goal with |- context [_make_api_request network ancy ?ui stored ?w1] =>
    destruct (make_api_request_run network ancy api_key ui stored
                (turns ++ [new_turn]) w1 Hancy2 Hh1) as (σ' & Hσ' & ->)
  end.
  cbn [heap sent ui_log session_state] in *.
  match goal with |- context [reply_to ?o ?w'] =>
    destruct (reply_to_returns o w') as (v & -> & _) end.
  erewrite bind_ret by (by apply get_messages_run).
  erewrite bind_ret by apply alloc_run.
  erewrite bind_ret; cycle 1.
  { apply list_append_run. rewrite lookup_insert_ne.
    - eapply lookup_weaken; [apply lookup_insert_eq|exact Hσ'].
    - intros E. pose proof (fresh_lookup σ') as F. rewrite E in F.
      erewrite lookup_weaken in F; [discriminate|apply lookup_insert_eq|exact Hσ']. }
  cbn [snd sent].
  eexists _, (expected_messages (turns ++ [new_turn]) (user_input wd)).
  split; [reflexivity|]. split; [reflexivity|].
  unfold expected_messages. fold new_turn. split.
  - rewrite last_n_snoc.
    exists (turn (lit "system") (PStr SYSTEM_PROMPT) :: last_n 9 turns).
    cbn [app]. by rewrite <- app_assoc.
  - intros Hlen. by rewrite last_n_short.
Qed.

End Submission.

(** ** Startup *)

Lemma check_api_key_rejected (GROQ_API_KEY : option str) :
  GROQ_API_KEY = None \/ truthy (validate_api_key GROQ_API_KEY) = false ->
  check_api_key GROQ_API_KEY = setup_halt.
Proof.
  intros [->|H]; [done|]. unfold check_api_key.
  destruct GROQ_API_KEY as [key|]; [|done].
  by rewrite H, orb_true_r.
Qed.

Lemma initialize_session_state_run σ s u ss :
  exists σ' ss',
    initialize_session_state (mkWorld σ s u ss) = (Ret tt, mkWorld σ' s u ss')
    /\ (σ' = σ \/ σ' = <[fresh (dom σ) := OList []]> σ).
Proof.
  destruct ss as [[m|] [a|]]; eexists _, _; (split; [reflexivity|]); auto.
Qed.

Section Startup.

Variable network : list Request -> Request -> post_outcome.

(** C10: when the configured key is absent or refused by
    [validate_api_key], [main] stops the script after showing the error
    and the setup instructions: no request has been sent and no
    [AncyTravelGuide] instance has been created in that run. *)
Theorem startup_halts_without_key (GROQ_API_KEY : option str) (wd : Widgets)
    (w : World) :
  GROQ_API_KEY = None \/ truthy (validate_api_key GROQ_API_KEY) = false ->
  (main network GROQ_API_KEY wd w).1 = Control StopScript /\
  ui_log (main network GROQ_API_KEY wd w).2 =
    ui_log w ++
    [set_page_config; markdown_style;
     st_error (lit "❌ Groq API key not found or invalid!");
     st_info (lit "
        **To set up your API key:**
        1. Create a `.env` file in your project directory
        2. Add your Groq API key: `GROQ_API_KEY=your_api_key_here`
        3. Get your free API key at [console.groq.com](https://console.groq.com/)
        ")] /\
  sent (main network GROQ_API_KEY wd w).2 = sent w /\
  (forall l key,
     heap (main network GROQ_API_KEY wd w).2 !! l = Some (OAncy key) ->
     heap w !! l = Some (OAncy key)).
Proof.
  intros H. destruct w as [σ s u ss].
  destruct (initialize_session_state_run σ s
              ((u ++ [set_page_config]) ++ [markdown_style]) ss)
    as (σ' & ss' & Hinit & Hσ').
  unfold main.
  erewrite bind_ret by apply st_run.
  erewrite bind_ret by apply st_run.
  erewrite bind_ret by exact Hinit.
  rewrite (check_api_key_rejected _ H).
  erewrite bind_control by reflexivity.
  unfold set_ui_log. cbn [fst snd heap sent ui_log].
  split; [done|]. split; [by rewrite <- !app_assoc|]. split; [done|].
  intros l key Hl. destruct Hσ' as [->| ->]; [done|].
  destruct (decide (l = fresh (dom σ))) as [->|Hne].
  - rewrite lookup_insert_eq in Hl. discriminate.
  - by rewrite lookup_insert_ne in Hl.
Qed.

End Startup.

(** * Concrete runs *)

Lemma example_self :
  heap example_world !! 1%positive = Some (OAncy example_key).
Proof. vm_compute. reflexivity. Qed.

Lemma example_history :
  history_at (heap example_world) 2%positive example_turns.
Proof.
  exists [3%positive; 4%positive]. split; [vm_compute; reflexivity|].
  repeat constructor.
Qed.

Lemma example_text : strip (lit "Bonjour ?") <> [].
Proof. vm_compute. discriminate. Qed.

Example last_n_of_twelve :
  last_n 10 (seq 1 12) = seq 3 10 /\ last_n 10 (seq 1 4) = seq 1 4.
Proof. split; reflexivity. Qed.

Example validate_api_key_examples :
  validate_api_key None = PNone /\
  validate_api_key (Some []) = PStr [] /\
  validate_api_key (Some (lit "YOUR_GROQ_API_KEY_HERE")) = PBool false /\
  validate_api_key (Some (lit "0123456789")) = PBool false /\
  validate_api_key (Some (lit "0123456789a")) = PBool true.
Proof. vm_compute. repeat split. Qed.

Lemma chat_blank_input_witness :
  chat (always (json_response 200 (lit "OK") bonjour_body)) 1%positive
    (lit "   ") 2%positive example_world
  = (Ret (PStr (lit "🤔 I sense the quiet before an adventure... What's stirring in your traveler's heart?")),
     example_world)
  /\ sent (chat (always (json_response 200 (lit "OK") bonjour_body))
             1%positive (lit "   ") 2%positive example_world).2
     = sent example_world.
Proof. apply chat_blank_input. vm_compute. reflexivity. Defined.

Lemma chat_request_messages_witness :
  exists req middle,
    sent (chat (always (json_response 200 (lit "OK") bonjour_body)) 1%positive
            (lit "Bonjour ?") 2%positive example_world).2
      = sent example_world ++ [req] /\
    request_messages req =
      Some (PList (PDict <$>
        [(lit "role", PStr (lit "system"));
         (lit "content", PStr (lit "
You are Ancy, a warm and inspiring AI travel guide with a poetic soul and adventurous spirit.

Your characteristics:
- Speak with beautiful, flowing language and travel metaphors
- Always remain enthusiastic, encouraging, and wise
- Offer detailed advice about destinations, travel tips, cultural insights, and emotional support
- Use vivid imagery of places, journeys, and discoveries in your responses
- Be inspiring and uplifting while providing practical, actionable travel wisdom
- Share stories and insights that make travelers feel excited about their journeys
- Keep responses engaging but focused (3-6 sentences typically)

Remember: You are a companion for wanderers, dreamers, and adventurers on their life journeys.
"))]
          :: middle
          ++ [[(lit "role", PStr (lit "user"));
               (lit "content", PStr (lit "Bonjour ?"))]])) /\
    length middle = Nat.min 10 (length example_turns) /\
    (exists before, example_turns = before ++ middle) /\
    ((length example_turns <= 10)%nat -> middle = example_turns) /\
    ((10 < length example_turns)%nat ->
     middle = drop (length example_turns - 10) example_turns).
Proof.
  exact (chat_request_messages
           (always (json_response 200 (lit "OK") bonjour_body)) 1%positive
           example_key (lit "Bonjour ?") 2%positive example_turns
           example_world example_self example_history example_text).
Defined.

Lemma chat_returns_witness :
  exists v,
    (chat (always (json_response 200 (lit "OK") bonjour_body)) 1%positive
       (lit "Bonjour ?") 2%positive example_world).1 = Ret v /\
    ((exists m, v = PStr m /\
        (m = lit "🤔 I sense the quiet before an adventure... What's stirring in your traveler's heart?"
         \/ mapped_message m)) \/
     (exists r body,
        always (json_response 200 (lit "OK") bonjour_body) (sent example_world)
          (request_with example_key
             (expected_messages example_turns (lit "Bonjour ?")))
          = PostReturns r /\
        is_http_error (status_code r) = false /\
        json_result r = inr body /\
        reply_field body = inr v)).
Proof.
  apply chat_returns.
  - exact example_self.
  - exact example_history.
Defined.

(** C2 as stated fails on a success response whose content field is
    [null]: [chat] returns [None], which is not a string. *)
Lemma chat_null_content_not_a_string :
  heap example_world !! 1%positive = Some (OAncy example_key) /\
  history_at (heap example_world) 2%positive example_turns /\
  ~ exists s,
      (chat (always (json_response 200 (lit "OK") null_content_body))
         1%positive (lit "Bonjour ?") 2%positive example_world).1
      = Ret (PStr s).
Proof.
  split; [exact example_self|]. split; [exact example_history|].
  intros [s H]. vm_compute in H. discriminate.
Qed.

Lemma chat_http_error_witness :
  (chat (always (mkResponse 401 (lit "Unauthorized") GROQ_API_URL (inl [])))
     1%positive (lit "Bonjour ?") 2%positive example_world).1 =
    Ret (PStr (lit "🔑 Authentication failed. Please check your Groq API key in .env file."))
  /\
  (chat (always (mkResponse 503 (lit "Service Unavailable") GROQ_API_URL
                   (inl [])))
     1%positive (lit "Bonjour ?") 2%positive example_world).1 =
    Ret (PStr (lit "🚫 API error (503): 503 Server Error: Service Unavailable for url: https://api.groq.com/openai/v1/chat/completions")).
Proof.
  split.
  - refine (proj1 (chat_http_error _ 1%positive example_key (lit "Bonjour ?")
             2%positive example_turns example_world
             (mkResponse 401 (lit "Unauthorized") GROQ_API_URL (inl []))
             example_self example_history example_text eq_refl _) eq_refl).
    cbn [status_code]. lia.
  - etrans;
      [refine (proj2 (proj2 (chat_http_error _ 1%positive example_key
                 (lit "Bonjour ?") 2%positive example_turns example_world
                 (mkResponse 503 (lit "Service Unavailable") GROQ_API_URL
                    (inl []))
                 example_self example_history example_text eq_refl _)) _ _);
       cbn [status_code]; lia|].
    vm_compute. reflexivity.
Defined.

Lemma chat_success_witness :
  (chat (always (json_response 200 (lit "OK") bonjour_body)) 1%positive
     (lit "Bonjour ?") 2%positive example_world).1
  = Ret (PStr (lit "Bonjour!")).
Proof.
  refine (chat_success _ 1%positive example_key (lit "Bonjour ?") 2%positive
            example_turns example_world
            (json_response 200 (lit "OK") bonjour_body)
            [(lit "choices",
              PList [PDict [(lit "message",
                             PDict [(lit "content", PStr (lit "Bonjour!"))])]])]
            [(lit "message", PDict [(lit "content", PStr (lit "Bonjour!"))])]
            [(lit "content", PStr (lit "Bonjour!"))] [] (lit "Bonjour!")
            example_self example_history example_text eq_refl _ eq_refl
            _ _ _).
  - cbn [status_code json_response]. lia.
  - vm_compute. reflexivity.
  - vm_compute. reflexivity.
  - vm_compute. reflexivity.
Defined.

Lemma chat_missing_field_witness :
  (chat (always (json_response 200 (lit "OK") no_choices_body)) 1%positive
     (lit "Bonjour ?") 2%positive example_world).1 =
    Ret (PStr (lit "🔍 Unexpected response structure: missing "
                 ++ lit "'" ++ lit "choices" ++ lit "'"))
  /\
  (chat (always (json_response 200 (lit "OK") empty_choices_body)) 1%positive
     (lit "Bonjour ?") 2%positive example_world).1 =
    Ret (PStr (lit "❌ Unexpected error: " ++ lit "list index out of range")).
Proof.
  split.
  - refine (proj1 (chat_missing_field _ 1%positive example_key
             (lit "Bonjour ?") 2%positive example_turns example_world
             (json_response 200 (lit "OK") no_choices_body) no_choices_body
             example_self example_history example_text eq_refl _ eq_refl)
             (lit "choices") _).
    + cbn [status_code json_response]. lia.
    + apply lacks_choices. vm_compute. reflexivity.
  - refine (proj2 (chat_missing_field _ 1%positive example_key
             (lit "Bonjour ?") 2%positive example_turns example_world
             (json_response 200 (lit "OK") empty_choices_body)
             empty_choices_body
             example_self example_history example_text eq_refl _ eq_refl)
             _ eq_refl _).
    + cbn [status_code json_response]. lia.
    + vm_compute. reflexivity.
Defined.

(** C6 as stated fails on a 2xx response whose [choices] list is empty:
    what [chat] returns is not the missing-field message. *)
Lemma chat_empty_choices_not_missing_field :
  heap example_world !! 1%positive = Some (OAncy example_key) /\
  history_at (heap example_world) 2%positive example_turns /\
  strip (lit "Bonjour ?") <> [] /\
  ~ exists field,
      (chat (always (json_response 200 (lit "OK") empty_choices_body))
         1%positive (lit "Bonjour ?") 2%positive example_world).1
      = Ret (PStr (lit "🔍 Unexpected response structure: missing " ++ field)).
Proof.
  split; [exact example_self|]. split; [exact example_history|].
  split; [exact example_text|].
  intros [field H]. vm_compute in H. discriminate.
Qed.

Lemma history_unchanged_witness :
  history_at
    (heap (chat (always (json_response 200 (lit "OK") bonjour_body))
             1%positive (lit "Bonjour ?") 2%positive example_world).2)
    2%positive example_turns.
Proof.
  refine (proj2 (proj2 (history_unchanged _ 1%positive (lit "Bonjour ?")
                          2%positive example_world) example_turns _)).
  exists [3%positive; 4%positive]. split; [vm_compute; reflexivity|].
  repeat constructor.
Defined.

Lemma startup_halts_without_key_witness :
  (main (always (json_response 200 (lit "OK") bonjour_body))
     (Some (lit "too_short")) (mkWidgets false (lit "Bonjour ?") true)
     example_world).1 = Control StopScript
  /\
  sent (main (always (json_response 200 (lit "OK") bonjour_body))
          (Some (lit "too_short")) (mkWidgets false (lit "Bonjour ?") true)
          example_world).2 = sent example_world.
Proof.
  pose proof (startup_halts_without_key
                (always (json_response 200 (lit "OK") bonjour_body))
                (Some (lit "too_short"))
                (mkWidgets false (lit "Bonjour ?") true) example_world) as H.
  destruct H as (H1 & _ & H3 & _).
  - right. vm_compute. reflexivity.
  - split; [exact H1|exact H3].
Defined.

Lemma submission_repeats_user_turn_witness :
  exists req msgs,
    sent (handle_user_input
            (always (json_response 200 (lit "OK") bonjour_body)) 1%positive
            (mkWidgets false (lit "Bonjour ?") true) example_world).2
      = sent example_world ++ [req] /\
    request_messages req = Some (PList (PDict <$> msgs)) /\
    (exists before,
       msgs = before ++ [[(lit "role", PStr (lit "user"));
                          (lit "content", PStr (lit "Bonjour ?"))];
                         [(lit "role", PStr (lit "user"));
                          (lit "content", PStr (lit "Bonjour ?"))]]) /\
    ((length (example_turns ++ [[(lit "role", PStr (lit "user"));
                                 (lit "content", PStr (lit "Bonjour ?"))]])
        <= 10)%nat ->
     msgs = [(lit "role", PStr (lit "system"));
             (lit "content", PStr SYSTEM_PROMPT)]
              :: (example_turns ++ [[(lit "role", PStr (lit "user"));
                                     (lit "content", PStr (lit "Bonjour ?"))]])
              ++ [[(lit "role", PStr (lit "user"));
                   (lit "content", PStr (lit "Bonjour ?"))]]).
Proof.
  destruct (submission_repeats_user_turn
              (always (json_response 200 (lit "OK") bonjour_body))
              1%positive example_key
              (mkWidgets false (lit "Bonjour ?") true) 2%positive
              example_turns example_world)
    as (w1 & _ & _ & _ & _ & H).
  - exact example_self.
  - reflexivity.
  - exact example_history.
  - reflexivity.
  - vm_compute. discriminate.
  - exact (H example_text).
Defined.

(** With twelve stored turns the request carries the preamble, turns 3 to
    12, and the new turn; the stored list still has its twelve elements. *)
Example chat_long_history :
  let w' := (chat (always (json_response 200 (lit "OK") bonjour_body))
               1%positive (lit "Bonjour ?") 2%positive long_world).2 in
  (request_messages <$> sent w') =
    [Some (PList (PDict <$>
       preamble :: (numbered_turn <$> seq 3 10) ++ [user_turn (lit "Bonjour ?")]))]
  /\ heap w' !! 2%positive
     = Some (OList ((fun i => Pos.of_nat (i + 2)) <$> seq 1 12)).
Proof. vm_compute. split; reflexivity. Qed.

(** * Further properties of the client *)

Lemma handlers_pure (o : option Response) (e : exn) (w w0 : World) :
  handlers o e w = ((handlers o e w0).1, w).
Proof.
  unfold handlers.
  destruct (isinstance e HTTPError).
  { destruct o as [r|]; [|done].
    destruct (status_code r =? 401); [done|].
    by destruct (status_code r =? 429). }
  destruct (isinstance e ConnectionError); [done|].
  destruct (isinstance e Timeout); [done|].
  destruct (isinstance e JSONDecodeError); [done|].
  destruct (isinstance e KeyError); [done|].
  by destruct (isinstance e Exception_).
Qed.

Lemma reply_to_pure (o : post_outcome) (w : World) :
  reply_to o w = (reply_of o, w).
Proof.
  unfold reply_of. destruct o as [t|r]; unfold reply_to.
  - apply handlers_pure.
  - rewrite !extract_reply_run.
    destruct (extract_reply_result r); [apply handlers_pure|done].
Qed.

Section ClientEffects.

Variable network : list Request -> Request -> post_outcome.

(** The run of a call with a text that is not blank, with the world it
    ends in. *)
Lemma chat_run_world self k ui h turns w :
  heap w !! self = Some (OAncy k) ->
  history_at (heap w) h turns ->
  strip ui <> [] ->
  exists σ',
    heap w ⊆ σ' /\
    chat network self ui h w =
    (reply_of (network (sent w) (request_with k (expected_messages turns ui))),
     mkWorld σ' (sent w ++ [request_with k (expected_messages turns ui)])
       (ui_log w) (session_state w)).
Proof.
  intros Hself Hh Hne. rewrite (chat_nonblank _ _ _ _ _ Hne).
  destruct (make_api_request_run network self k ui h turns w Hself Hh)
    as (σ' & Hσ' & ->).
  exists σ'. split; [done|]. apply reply_to_pure.
Qed.

(** X1: the one request of a call goes to the Groq chat-completions URL
    with the headers [Authorization: Bearer <api_key>] and
    [Content-Type: application/json], a timeout of 30, and a body with the
    model [llama3-8b-8192], [max_tokens] 1000, [temperature] 0.8 and
    [stream] false; its message list has between 2 and 12 entries:
    [min 10 (length history) + 2]. *)
Theorem chat_request_envelope (self : loc) (api_key : str) (user_text : str)
    (history : loc) (turns : list (list (str * pyval))) (w : World) :
  heap w !! self = Some (OAncy api_key) ->
  history_at (heap w) history turns ->
  strip user_text <> [] ->
  exists req messages,
    sent (chat network self user_text history w).2 = sent w ++ [req] /\
    req_url req = lit "https://api.groq.com/openai/v1/chat/completions" /\
    req_headers req =
      [(lit "Authorization", lit "Bearer " ++ api_key);
       (lit "Content-Type", lit "application/json")] /\
    req_timeout req = 30 /\
    req_json req =
      PDict [(lit "model", PStr (lit "llama3-8b-8192"));
             (lit "messages", PList messages);
             (lit "max_tokens", PInt 1000);
             (lit "temperature",
              PFloat (S754_finite false 7205759403792794 (-53)));
             (lit "stream", PBool false)] /\
    length messages = (Nat.min 10 (length turns) + 2)%nat.
Proof.
  intros Hself Hh Hne.
  destruct (chat_run_world self api_key user_text history turns w
              Hself Hh Hne) as (σ' & _ & ->).
  eexists _, _. cbn [snd sent].
  split; [reflexivity|]. split; [reflexivity|]. split; [reflexivity|].
  split; [reflexivity|]. split; [reflexivity|].
  rewrite length_fmap. unfold expected_messages. cbn [length].
  rewrite length_app, length_last_n. cbn [length]. lia.
Qed.

(** X2: when the call itself fails, [chat] answers with the connectivity
    message for a connection failure and also for a connection timeout
    (which is a [ConnectionError] as well as a [Timeout], and the
    [ConnectionError] clause comes first), with the timeout message for a
    read timeout, and with the unexpected-error message followed by the
    text of the exception for any other failure. *)
Theorem chat_transport_failure (self : loc) (api_key : str) (user_text : str)
    (history : loc) (turns : list (list (str * pyval))) (w : World)
    (t : transport_error) :
  heap w !! self = Some (OAncy api_key) ->
  history_at (heap w) history turns ->
  strip user_text <> [] ->
  network (sent w) (request_with api_key (expected_messages turns user_text))
    = PostRaises t ->
  (chat network self user_text history w).1 =
    Ret (PStr
      match t with
      | ConnectionFailed _ | ConnectTimedOut _ =>
        lit "🌐 Connection error. Please check your internet connection."
      | ReadTimedOut _ =>
        lit "⏰ Request timed out. The API might be busy, please try again."
      | OtherFailure msg => lit "❌ Unexpected error: " ++ msg
      end).
Proof.
  intros Hself Hh Hne Hnet.
  destruct (chat_run_world self api_key user_text history turns w
              Hself Hh Hne) as (σ' & _ & ->).
  rewrite Hnet. cbn [fst]. unfold reply_of, reply_to.
  destruct t; unfold handlers, exn_of_transport_error; eval_issubclass;
    reflexivity.
Qed.

(** X3: when the response is not an HTTP error and its body is not JSON,
    [chat] answers with the invalid-format message. *)
Theorem chat_body_not_json (self : loc) (api_key : str) (user_text : str)
    (history : loc) (turns : list (list (str * pyval))) (w : World)
    (r : Response) (msg : str) :
  heap w !! self = Some (OAncy api_key) ->
  history_at (heap w) history turns ->
  strip user_text <> [] ->
  network (sent w) (request_with api_key (expected_messages turns user_text))
    = PostReturns r ->
  status_code r < 400 \/ 600 <= status_code r ->
  json_result r = inl msg ->
  (chat network self user_text history w).1 =
    Ret (PStr (lit "📄 Invalid response format from API.")).
Proof.
  intros Hself Hh Hne Hnet Hst Hj.
  destruct (chat_run_world self api_key user_text history turns w
              Hself Hh Hne) as (σ' & _ & ->).
  rewrite Hnet. cbn [fst]. unfold reply_of, reply_to.
  rewrite extract_reply_run. unfold extract_reply_result.
  replace (is_http_error (status_code r)) with false
    by (unfold is_http_error; lia).
  rewrite Hj. unfold handlers. eval_issubclass. reflexivity.
Qed.

Lemma reply_field_not_object (body : pyval) :
  (forall d, body <> PDict d) ->
  exists detail, reply_field body = inl (Exn TypeError detail).
Proof.
  intros H. unfold reply_field.
  destruct body; try (eexists; reflexivity). by destruct (H fields).
Qed.

(** X4: when the response is not an HTTP error and its JSON body is not an
    object, subscripting it with ["choices"] raises a [TypeError], and
    [chat] returns the unexpected-error message followed by the text of
    that error: "'NoneType' object is not subscriptable" for null (and the
    like for a boolean, an integer and a float), "list indices must be
    integers or slices, not str" for a list, "string indices must be
    integers, not 'str'" for a string. *)
Theorem chat_body_not_object (self : loc) (api_key : str) (user_text : str)
    (history : loc) (turns : list (list (str * pyval))) (w : World)
    (r : Response) (body : pyval) :
  heap w !! self = Some (OAncy api_key) ->
  history_at (heap w) history turns ->
  strip user_text <> [] ->
  network (sent w) (request_with api_key (expected_messages turns user_text))
    = PostReturns r ->
  status_code r < 400 \/ 600 <= status_code r ->
  json_result r = inr body ->
  (forall d, body <> PDict d) ->
  (chat network self user_text history w).1 =
    Ret (PStr
      match body with
      | PNone =>
        lit "❌ Unexpected error: 'NoneType' object is not subscriptable"
      | PBool _ =>
        lit "❌ Unexpected error: 'bool' object is not subscriptable"
      | PInt _ =>
        lit "❌ Unexpected error: 'int' object is not subscriptable"
      | PFloat _ =>
        lit "❌ Unexpected error: 'float' object is not subscriptable"
      | PStr _ =>
        lit "❌ Unexpected error: string indices must be integers, not 'str'"
      | PList _ =>
        lit "❌ Unexpected error: list indices must be integers or slices, not str"
      | PDict _ => []
      end).
Proof.
  intros Hself Hh Hne Hnet Hst Hj Hb.
  destruct (chat_run_world self api_key user_text history turns w
              Hself Hh Hne) as (σ' & _ & ->).
  rewrite Hnet. cbn [fst]. unfold reply_of.
  rewrite (reply_to_body r body) by (done || unfold is_http_error; lia).
  destruct body as [|b|z|f|s0|items|fields];
    [..|by destruct (Hb fields)]; vm_compute; reflexivity.
Qed.

(** X5: when the body is an object whose [choices] is a list starting
    with an object that has a [message] object with a [content] key, [chat]
    returns the value under that key unchanged, whatever its type; the other
    choices and the other keys of the objects play no part. *)
Theorem chat_first_choice (self : loc) (api_key : str) (user_text : str)
    (history : loc) (turns : list (list (str * pyval))) (w : World)
    (r : Response) (d c m : list (str * pyval)) (others : list pyval)
    (v : pyval) :
  heap w !! self = Some (OAncy api_key) ->
  history_at (heap w) history turns ->
  strip user_text <> [] ->
  network (sent w) (request_with api_key (expected_messages turns user_text))
    = PostReturns r ->
  status_code r < 400 \/ 600 <= status_code r ->
  json_result r = inr (PDict d) ->
  dict_get d (lit "choices") = Some (PList (PDict c :: others)) ->
  dict_get c (lit "message") = Some (PDict m) ->
  dict_get m (lit "content") = Some v ->
  (chat network self user_text history w).1 = Ret v.
Proof.
  intros Hself Hh Hne Hnet Hst Hj Hd Hc Hm.
  destruct (chat_run_world self api_key user_text history turns w
              Hself Hh Hne) as (σ' & _ & ->).
  rewrite Hnet. cbn [fst]. unfold reply_of.
  rewrite (reply_to_body r (PDict d)) by (done || unfold is_http_error; lia).
  unfold reply_field. unfold getitem at 1. rewrite Hd.
  unfold getitem at 1. unfold seq_index. cbn [length].
  change (0 <? 0) with false. cbv iota.
  change ((0 <=? 0) && (0 <? Z.of_nat (S (length others)))) with
    (0 <? Z.of_nat (S (length others))).
  replace (0 <? Z.of_nat (S (length others))) with true
    by (symmetry; apply Z.ltb_lt; lia).
  change (Z.to_nat 0) with 0%nat. cbn [lookup list_lookup].
  unfold getitem at 1. rewrite Hc. unfold getitem. by rewrite Hm.
Qed.

(** X6: [chat] calls the service exactly when the text has a character
    that is not whitespace: a text of whitespace only sends nothing, any
    other text sends one request. *)
Theorem chat_calls_service_iff_text (self : loc) (api_key : str)
    (user_text : str) (history : loc) (turns : list (list (str * pyval)))
    (w : World) :
  heap w !! self = Some (OAncy api_key) ->
  history_at (heap w) history turns ->
  (forallb isspace user_text = true ->
   sent (chat network self user_text history w).2 = sent w) /\
  (forallb isspace user_text = false ->
   exists req, sent (chat network self user_text history w).2 = sent w ++ [req]).
Proof.
  intros Hself Hh. split; intros Hs.
  - apply strip_nil_iff in Hs. by rewrite (chat_blank _ _ _ _ _ Hs).
  - assert (Hne : strip user_text <> []).
    { intros E. apply strip_nil_iff in E. congruence. }
    destruct (chat_run_world self api_key user_text history turns w
                Hself Hh Hne) as (σ' & _ & ->).
    by eexists.
Qed.

End ClientEffects.

Section ClientScope.

Variable network : list Request -> Request -> post_outcome.

Lemma requests_post_world url headers json timeout (w : World) :
  (requests_post network url headers json timeout w).2 = w \/
  exists req,
    (requests_post network url headers json timeout w).2
    = set_sent (fun s => s ++ [req]) w.
Proof.
  unfold requests_post, dump_payload, mbind, M_bind.
  pose proof (dump_list_world (p_messages json) w) as Hw.
  destruct (dump_list (p_messages json) w) as [[v|e|c] w1];
    cbn [snd] in Hw; subst w1; [|by left..].
  unfold mret, M_ret. right. eexists.
  by destruct (network (sent w) _).
Qed.

Lemma try_block_world url headers json timeout (w : World) :
  let w' := (try_except (requests_post network url headers json timeout)
               extract_reply handlers w).2 in
  w' = w \/ exists req, w' = set_sent (fun s => s ++ [req]) w.
Proof.
  cbv zeta. unfold try_except.
  pose proof (requests_post_world url headers json timeout w) as Hw.
  destruct (requests_post network url headers json timeout w)
    as [[r|e|c] w1]; cbn [snd] in Hw.
  - rewrite extract_reply_run.
    destruct (extract_reply_result r); [|done].
    by rewrite handlers_world.
  - by rewrite handlers_world.
  - done.
Qed.

Lemma make_api_request_scope self um h (w : World) :
  let w' := (_make_api_request network self um h w).2 in
  ui_log w' = ui_log w /\ session_state w' = session_state w /\
  (sent w' = sent w \/ exists req, sent w' = sent w ++ [req]).
Proof.
  cbv zeta. destruct w as [σ s u ss]. cbn [sent ui_log session_state].
  destruct (σ !! self) as [o|] eqn:Hself; cycle 1.
  { unfold _make_api_request, mbind, M_bind, get_api_key. cbn [heap].
    rewrite Hself. cbn [snd sent ui_log session_state]. auto. }
  destruct o as [| |k];
    try (unfold _make_api_request, mbind, M_bind, get_api_key; cbn [heap];
         rewrite Hself; cbn [snd sent ui_log session_state]; by auto).
  set (l1 := fresh (dom σ)).
  set (σ1 := <[l1 := ODict preamble]> σ).
  set (l2 := fresh (dom σ1)).
  set (σ2 := <[l2 := OList [l1]]> σ1).
  assert (Hfail : (forall refs, σ2 !! h <> Some (OList refs)) ->
    exists e, _make_api_request network self um h (mkWorld σ s u ss)
              = (Raise e, mkWorld σ2 s u ss)).
  { intros Hh. unfold _make_api_request.
    erewrite bind_ret by (by apply get_api_key_run).
    erewrite bind_ret by apply alloc_run.
    erewrite bind_ret by apply alloc_run.
    fold preamble l1 σ1 l2 σ2.
    destruct (σ2 !! h) as [[refs| |]|] eqn:E; [by destruct (Hh refs)|..];
      (eexists; apply bind_raise; unfold list_slice_from; cbn [heap];
       rewrite E; reflexivity). }
  destruct (σ2 !! h) as [[refs| |]|] eqn:Hh;
    try (destruct Hfail as (e & ->); [congruence|];
         cbn [snd sent ui_log session_state]; by auto).
  destruct (make_api_request_build network self k um h refs σ s u ss
              Hself Hh) as (l3 & σ5 & _ & _ & _ & _ & ->).
  match goal with
  | |- context [try_except (requests_post network ?a ?b ?c ?d) _ _ ?w0] =>
    destruct (try_block_world a b c d w0) as [->|(req & ->)]
  end; cbn [sent ui_log session_state set_sent]; eauto.
Qed.

(** X7: for an instance and a history that is a list of dicts, whatever
    the text is and whatever the service does, a call to [chat] sends at
    most one request (there is no retry), shows nothing, and leaves the
    session state as it was. *)
Theorem chat_scope (self : loc) (api_key : str) (user_text : str)
    (history : loc) (turns : list (list (str * pyval))) (w : World) :
  heap w !! self = Some (OAncy api_key) ->
  history_at (heap w) history turns ->
  let w' := (chat network self user_text history w).2 in
  (sent w' = sent w \/ exists req, sent w' = sent w ++ [req]) /\
  ui_log w' = ui_log w /\
  session_state w' = session_state w.
Proof.
  intros Hself Hh. cbv zeta.
  destruct (decide (strip user_text = [])) as [Hb|Hne].
  - rewrite (chat_blank _ _ _ _ _ Hb). cbn [snd]. by auto.
  - destruct (chat_run_world network self api_key user_text history turns w
                Hself Hh Hne) as (σ' & _ & ->).
    cbn [snd sent ui_log session_state]. split; [right; by eexists|done].
Qed.

End ClientScope.

(** * Properties of the script *)

Lemma dict_get_turn_role (r : str) (c : pyval) :
  dict_get (turn r c) (lit "role") = Some (PStr r).
Proof. vm_compute. reflexivity. Qed.

Lemma dict_get_turn_content (r : str) (c : pyval) :
  dict_get (turn r c) (lit "content") = Some c.
Proof. vm_compute. reflexivity. Qed.

Lemma obj_getitem_role message r c σ s u ss :
  σ !! message = Some (ODict (turn r c)) ->
  obj_getitem message (lit "role") (mkWorld σ s u ss)
  = (Ret (PStr r), mkWorld σ s u ss).
Proof.
  intros H. unfold obj_getitem. cbn [heap]. rewrite H.
  unfold getitem. by rewrite dict_get_turn_role.
Qed.

Lemma obj_getitem_content message r c σ s u ss :
  σ !! message = Some (ODict (turn r c)) ->
  obj_getitem message (lit "content") (mkWorld σ s u ss)
  = (Ret c, mkWorld σ s u ss).
Proof.
  intros H. unfold obj_getitem. cbn [heap]. rewrite H.
  unfold getitem. by rewrite dict_get_turn_content.
Qed.

Lemma display_messages_run refs rcs σ s u ss :
  Forall2 (fun r rc => σ !! r = Some (ODict (turn_of rc))) refs rcs ->
  display_messages refs (mkWorld σ s u ss)
  = (Ret tt, mkWorld σ s (u ++ (bubble_of <$> rcs)) ss).
Proof.
  intros H. revert u.
  induction H as [|message [r c] refs rcs Hm _ IH]; intros u.
  - cbn [display_messages fmap list_fmap]. by rewrite app_nil_r.
  - cbn [display_messages]. unfold turn_of in Hm. cbn [fst snd] in Hm.
    erewrite bind_ret by (eapply obj_getitem_role; exact Hm).
    cbv beta iota.
    erewrite bind_ret; cycle 1.
    { instantiate (1 := mkWorld σ s (u ++ [bubble_of (r, c)]) ss).
      instantiate (1 := tt).
      unfold bubble_of. cbn [fst snd].
      destruct (bool_decide (r = lit "user"));
        (erewrite bind_ret by (eapply obj_getitem_content; exact Hm));
        apply st_run. }
    rewrite IH. cbn [fmap list_fmap]. by rewrite <- app_assoc.
Qed.

(** X8: [initialize_session_state] sets only what is absent: a stored
    conversation and an initialisation flag that exist are kept, together
    with every object, so a rerun of the script does not lose the
    conversation; afterwards both attributes exist, and running it again
    changes nothing.  It sends nothing and shows nothing. *)
Theorem initialize_session_state_keeps (w : World) :
  let w1 := (initialize_session_state w).2 in
  (initialize_session_state w).1 = Ret tt /\
  initialize_session_state w1 = (Ret tt, w1) /\
  is_Some (ss_messages (session_state w1)) /\
  is_Some (ss_ancy_initialized (session_state w1)) /\
  (forall l, ss_messages (session_state w) = Some l ->
     ss_messages (session_state w1) = Some l /\ heap w1 = heap w) /\
  (forall b, ss_ancy_initialized (session_state w) = Some b ->
     ss_ancy_initialized (session_state w1) = Some b) /\
  (ss_messages (session_state w) = None ->
     exists l, ss_messages (session_state w1) = Some l /\
               heap w !! l = None /\ heap w1 = <[l := OList []]> (heap w)) /\
  (ss_ancy_initialized (session_state w) = None ->
     ss_ancy_initialized (session_state w1) = Some false) /\
  sent w1 = sent w /\ ui_log w1 = ui_log w.
Proof.
  destruct w as [σ s u [[m|] [a|]]]; cbv zeta;
    (split; [reflexivity|]); (split; [reflexivity|]);
    cbn [initialize_session_state snd session_state ss_messages
         ss_ancy_initialized heap sent ui_log];
    repeat split; eauto; try discriminate; try congruence.
  all: intros _; eexists; split; [reflexivity|];
    split; [apply fresh_lookup|reflexivity].
Qed.

Lemma initialize_session_state_ready σ s u ss rcs :
  conversation_at (mkWorld σ s u ss) rcs ->
  exists σ0 h,
    initialize_session_state (mkWorld σ s u ss)
    = (Ret tt,
       mkWorld σ0 s u
         (mkSession (Some h) (Some (default false (ss_ancy_initialized ss)))))
    /\ σ ⊆ σ0
    /\ history_at σ0 h (turn_of <$> rcs)
    /\ (forall l k, σ0 !! l = Some (OAncy k) -> σ !! l = Some (OAncy k))
    /\ (forall h0, ss_messages ss = Some h0 -> h = h0)
    /\ (ss_messages ss = None -> σ !! h = None).
Proof.
  unfold conversation_at. cbn [session_state heap].
  destruct ss as [[m|] a]; cbn [ss_messages ss_ancy_initialized].
  - intros H. exists σ, m. split; [by destruct a|].
    split; [done|]. split; [done|]. split; [done|].
    split; [by intros h0 [= ->]|discriminate].
  - intros ->. exists (<[fresh (dom σ) := OList []]> σ), (fresh (dom σ)).
    split; [by destruct a|].
    split; [apply insert_subseteq, fresh_lookup|].
    split; [exists []; split; [apply lookup_insert_eq|constructor]|].
    split; [|split; [discriminate|intros _; apply fresh_lookup]].
    intros l k Hl. destruct (decide (l = fresh (dom σ))) as [->|Hne].
    + rewrite lookup_insert_eq in Hl. discriminate.
    + by rewrite lookup_insert_ne in Hl.
Qed.

Lemma check_api_key_accepted (key : str) :
  truthy (validate_api_key (Some key)) = true ->
  check_api_key (Some key) = mret key.
Proof.
  intros H. unfold check_api_key. rewrite H.
  assert (truthy (PStr key) = true) as ->; [|done].
  unfold validate_api_key in H.
  destruct (truthy (PStr key)) eqn:E; [done|]. congruence.
Qed.

Lemma get_ancy_initialized_run b σ s u ss :
  ss_ancy_initialized ss = Some b ->
  get_ancy_initialized (mkWorld σ s u ss) = (Ret b, mkWorld σ s u ss).
Proof.
  intros H. unfold get_ancy_initialized. cbn [session_state]. by rewrite H.
Qed.

Lemma list_iter_run l xs σ s u ss :
  σ !! l = Some (OList xs) ->
  list_iter l (mkWorld σ s u ss) = (Ret xs, mkWorld σ s u ss).
Proof. intros H. unfold list_iter. cbn [heap]. by rewrite H. Qed.

Section ScriptRuns.

Variable network : list Request -> Request -> post_outcome.

(** What [chat] gives on a well-formed history, blank text or not. *)
Lemma chat_result self k ui h turns σ s u ss :
  σ !! self = Some (OAncy k) ->
  history_at σ h turns ->
  exists σ' s' v,
    chat network self ui h (mkWorld σ s u ss) = (Ret v, mkWorld σ' s' u ss) /\
    σ ⊆ σ' /\
    ((strip ui = [] /\ s' = s /\
      v = PStr (lit "🤔 I sense the quiet before an adventure... What's stirring in your traveler's heart?"))
     \/
     (strip ui <> [] /\
      s' = s ++ [request_with k (expected_messages turns ui)] /\
      reply_of (network s (request_with k (expected_messages turns ui)))
        = Ret v)).
Proof.
  intros Hself Hh. destruct (decide (strip ui = [])) as [Hb|Hne].
  - rewrite (chat_blank _ _ _ _ _ Hb). eexists σ, s, _.
    split; [reflexivity|]. split; [done|]. left. done.
  - destruct (chat_run_world network self k ui h turns (mkWorld σ s u ss)
                Hself Hh Hne) as (σ' & Hσ' & ->).
    cbn [heap sent ui_log session_state] in *.
    match goal with |- context [reply_of ?o] =>
      destruct (reply_to_returns o empty_world) as (v & E & _);
      assert (Ev : reply_of o = Ret v) by (unfold reply_of; by rewrite E)
    end.
    rewrite Ev. eexists σ', _, v. split; [reflexivity|]. split; [done|].
    right. done.
Qed.

(** The run of the submission handler on a submitted text. *)
Lemma handle_user_input_submitted ancy k wd h turns σ s u ss :
  σ !! ancy = Some (OAncy k) ->
  ss_messages ss = Some h ->
  history_at σ h turns ->
  submit_button wd = true ->
  user_input wd <> [] ->
  exists σ' s' v,
    handle_user_input network ancy wd (mkWorld σ s u ss)
    = (Control RerunScript,
       mkWorld σ' s'
         (u ++ [spinner (lit "🌸 Ancy is crafting her response...")]) ss) /\
    history_at σ' h
      (turns ++ [turn (lit "user") (PStr (user_input wd));
                 turn (lit "assistant") v]) /\
    ((strip (user_input wd) = [] /\ s' = s /\
      v = PStr (lit "🤔 I sense the quiet before an adventure... What's stirring in your traveler's heart?"))
     \/
     (strip (user_input wd) <> [] /\
      s' = s ++ [request_with k
                   (expected_messages
                      (turns ++ [turn (lit "user") (PStr (user_input wd))])
                      (user_input wd))] /\
      reply_of (network s
                  (request_with k
                     (expected_messages
                        (turns ++ [turn (lit "user") (PStr (user_input wd))])
                        (user_input wd))))
        = Ret v)) /\
    (forall l o, σ !! l = Some o -> l <> h -> σ' !! l = Some o) /\
    (forall refs, σ !! h = Some (OList refs) ->
       exists d1 d2, σ' !! h = Some (OList (refs ++ [d1; d2]))).
Proof.
  intros Hancy Hss (refs & Hl & Hrefs) Hsub Hin.
  set (new_turn := turn (lit "user") (PStr (user_input wd))).
  pose proof (history_at_append σ h refs turns new_turn Hl Hrefs) as Hh1.
  set (d := fresh (dom σ)) in *.
  set (σ1 := <[d := ODict new_turn]> σ) in *.
  set (σ2 := <[h := OList (refs ++ [d])]> σ1) in *.
  assert (Hd : h <> d) by (eapply fresh_ne; exact Hl).
  assert (Hancy2 : σ2 !! ancy = Some (OAncy k)).
  { assert (ancy <> h) by (intros ->; rewrite Hl in Hancy; discriminate).
    assert (ancy <> d) by (eapply fresh_ne; exact Hancy).
    unfold σ2, σ1. by rewrite !lookup_insert_ne. }
  destruct (chat_result ancy k (user_input wd) h (turns ++ [new_turn]) σ2 s
              (u ++ [spinner (lit "🌸 Ancy is crafting her response...")])
              ss Hancy2 Hh1) as (σ' & s' & v & Hchat & Hσ' & Hv).
  pose proof (history_at_weaken _ _ _ _ Hσ' Hh1) as (refs' & Hl' & Hrefs').
  pose proof (history_at_append σ' h refs' _ (turn (lit "assistant") v)
                Hl' Hrefs') as Hh2.
  assert (Hl2 : σ' !! h = Some (OList (refs ++ [d]))).
  { eapply lookup_weaken; [apply lookup_insert_eq|exact Hσ']. }
  assert (refs' = refs ++ [d]) as -> by congruence.
  eexists _, s', v. split; [|split; [|split; [exact Hv|split]]].
  - unfold handle_user_input. rewrite Hsub. unfold truthy.
    rewrite (bool_decide_eq_false_2 _ Hin). cbn [andb negb].
    erewrite bind_ret by (by apply get_messages_run).
    erewrite bind_ret by apply alloc_run.
    erewrite bind_ret; cycle 1.
    { apply list_append_run. rewrite lookup_insert_ne by done. exact Hl. }
    erewrite bind_ret by apply st_run.
    erewrite bind_ret by (by apply get_messages_run).
    erewrite bind_ret by exact Hchat.
    erewrite bind_ret by (by apply get_messages_run).
    erewrite bind_ret by apply alloc_run.
    erewrite bind_ret; cycle 1.
    { apply list_append_run. rewrite lookup_insert_ne; [exact Hl'|].
      apply not_eq_sym. eapply fresh_ne. exact Hl'. }
    reflexivity.
  - rewrite <- (app_assoc turns) in Hh2. exact Hh2.
  - intros l o Ho Hne.
    assert (l <> d) by (eapply fresh_ne; exact Ho).
    assert (H2 : σ' !! l = Some o).
    { eapply lookup_weaken; [|exact Hσ']. unfold σ2, σ1.
      by rewrite !lookup_insert_ne. }
    assert (l <> fresh (dom σ')) by (eapply fresh_ne; exact H2).
    by rewrite !lookup_insert_ne.
  - intros refs0 H0. assert (refs0 = refs) as -> by congruence.
    exists d, (fresh (dom σ')). rewrite lookup_insert_eq.
    by rewrite <- app_assoc.
Qed.

(** Without a submitted text the handler does nothing. *)
Lemma handle_user_input_idle ancy wd (w : World) :
  submit_button wd = false \/ user_input wd = [] ->
  handle_user_input network ancy wd w = (Ret tt, w).
Proof.
  intros H. unfold handle_user_input.
  destruct H as [-> | ->]; [done|]. by rewrite andb_false_r.
Qed.

End ScriptRuns.

Lemma welcome_step (b : bool) σ s u m :
  ((if negb b then display_welcome_message;; set_ancy_initialized true
    else mret tt) : M unit)
    (mkWorld σ s u (mkSession m (Some b)))
  = (Ret tt,
     mkWorld σ s (u ++ (if b then [] else [welcome_message]))
       (mkSession m (Some true))).
Proof. destruct b; cbn [negb]; [by rewrite app_nil_r|reflexivity]. Qed.

(** The steps of [main] up to the clear button, for an accepted key. *)
Ltac run_main_prefix Hinit Hvalid :=
  unfold main;
  erewrite bind_ret by apply st_run;
  erewrite bind_ret by apply st_run;
  erewrite bind_ret by exact Hinit;
  rewrite (check_api_key_accepted _ Hvalid);
  erewrite bind_ret by reflexivity;
  erewrite bind_ret by apply alloc_run;
  erewrite bind_ret by (by apply get_ancy_initialized_run);
  erewrite bind_ret by apply welcome_step;
  erewrite bind_ret by apply st_run.

Section MainRuns.

Variable network : list Request -> Request -> post_outcome.

Lemma main_halted (GROQ_API_KEY : option str) wd (w : World) rcs :
  conversation_at w rcs ->
  GROQ_API_KEY = None \/ truthy (validate_api_key GROQ_API_KEY) = false ->
  (main network GROQ_API_KEY wd w).1 = Control StopScript /\
  conversation_at (main network GROQ_API_KEY wd w).2 rcs /\
  sent (main network GROQ_API_KEY wd w).2 = sent w /\
  heap w ⊆ heap (main network GROQ_API_KEY wd w).2.
Proof.
  intros Hc H. destruct w as [σ s u ss].
  destruct (initialize_session_state_ready σ s
              ((u ++ [set_page_config]) ++ [markdown_style]) ss rcs Hc)
    as (σ0 & h & Hinit & Hσ0 & Hh & _).
  unfold main.
  erewrite bind_ret by apply st_run.
  erewrite bind_ret by apply st_run.
  erewrite bind_ret by exact Hinit.
  rewrite (check_api_key_rejected _ H).
  erewrite bind_control by reflexivity.
  unfold set_ui_log. cbn [fst snd heap sent ui_log session_state].
  done.
Qed.

Lemma main_cleared (key : str) wd (w : World) rcs :
  conversation_at w rcs ->
  truthy (validate_api_key (Some key)) = true ->
  clear_clicked wd = true ->
  exists σ' l,
    main network (Some key) wd w =
    (Control RerunScript,
     mkWorld σ' (sent w)
       (ui_log w ++ [set_page_config; markdown_style]
          ++ (if default false (ss_ancy_initialized (session_state w))
              then [] else [welcome_message])
          ++ [clear_button])
       (mkSession (Some l) (Some true))) /\
    heap w !! l = None /\
    σ' !! l = Some (OList []) /\
    heap w ⊆ σ'.
Proof.
  intros Hc Hvalid Hclear. destruct w as [σ s u ss].
  destruct (initialize_session_state_ready σ s
              ((u ++ [set_page_config]) ++ [markdown_style]) ss rcs Hc)
    as (σ0 & h & Hinit & Hσ0 & Hh & _).
  set (σ1 := <[fresh (dom σ0) := OAncy key]> σ0).
  assert (H1 : σ ⊆ σ1).
  { etrans; [exact Hσ0|]. apply insert_subseteq, fresh_lookup. }
  exists (<[fresh (dom σ1) := OList []]> σ1), (fresh (dom σ1)).
  split; [|split; [|split]].
  - run_main_prefix Hinit Hvalid. rewrite Hclear.
    erewrite bind_control; cycle 1.
    { erewrite bind_ret by apply alloc_run.
      erewrite bind_ret by reflexivity. reflexivity. }
    cbn [sent ui_log session_state ss_ancy_initialized].
    f_equal. f_equal. by rewrite <- !app_assoc.
  - eapply lookup_weaken_None; [apply fresh_lookup|exact H1].
  - apply lookup_insert_eq.
  - etrans; [exact H1|]. apply insert_subseteq, fresh_lookup.
Qed.

Lemma main_rendered (key : str) wd (w : World) rcs :
  conversation_at w rcs ->
  truthy (validate_api_key (Some key)) = true ->
  clear_clicked wd = false ->
  submit_button wd = false \/ user_input wd = [] ->
  exists σ' h ancy,
    main network (Some key) wd w =
    (Ret tt,
     mkWorld σ' (sent w)
       (ui_log w ++ [set_page_config; markdown_style]
          ++ (if default false (ss_ancy_initialized (session_state w))
              then [] else [welcome_message])
          ++ [clear_button]
          ++ (bubble_of <$> rcs)
          ++ [divider; chat_form; divider; footer])
       (mkSession (Some h) (Some true))) /\
    history_at σ' h (turn_of <$> rcs) /\
    heap w ⊆ σ' /\
    heap w !! ancy = None /\
    σ' !! ancy = Some (OAncy key).
Proof.
  intros Hc Hvalid Hclear Hidle. destruct w as [σ s u ss].
  destruct (initialize_session_state_ready σ s
              ((u ++ [set_page_config]) ++ [markdown_style]) ss rcs Hc)
    as (σ0 & h & Hinit & Hσ0 & Hh & _).
  set (ancy := fresh (dom σ0)).
  set (σ1 := <[ancy := OAncy key]> σ0).
  assert (H01 : σ0 ⊆ σ1) by apply insert_subseteq, fresh_lookup.
  pose proof (history_at_weaken _ _ _ _ H01 Hh) as Hh1.
  destruct Hh1 as (refs & Hl & Hrefs). apply Forall2_fmap_r in Hrefs.
  exists σ1, h, ancy. split; [|split; [|split; [|split]]].
  - run_main_prefix Hinit Hvalid. rewrite Hclear.
    erewrite bind_ret by reflexivity.
    erewrite bind_ret by (by apply get_messages_run).
    erewrite bind_ret by (apply list_iter_run; exact Hl).
    erewrite bind_ret by (apply display_messages_run; exact Hrefs).
    erewrite bind_ret by apply st_run.
    erewrite bind_ret by apply st_run.
    erewrite bind_ret by (apply handle_user_input_idle; exact Hidle).
    erewrite bind_ret by apply st_run.
    rewrite st_run.
    cbn [sent ui_log session_state ss_ancy_initialized].
    f_equal. f_equal. by rewrite <- !app_assoc.
  - exists refs. split; [exact Hl|]. by apply Forall2_fmap_r.
  - by etrans.
  - eapply lookup_weaken_None; [apply fresh_lookup|exact Hσ0].
  - apply lookup_insert_eq.
Qed.

Lemma main_submitted (key : str) wd (w : World) rcs :
  conversation_at w rcs ->
  truthy (validate_api_key (Some key)) = true ->
  clear_clicked wd = false ->
  submit_button wd = true ->
  user_input wd <> [] ->
  exists σ' h s' v,
    main network (Some key) wd w =
    (Control RerunScript,
     mkWorld σ' s'
       (ui_log w ++ [set_page_config; markdown_style]
          ++ (if default false (ss_ancy_initialized (session_state w))
              then [] else [welcome_message])
          ++ [clear_button]
          ++ (bubble_of <$> rcs)
          ++ [divider; chat_form;
              spinner (lit "🌸 Ancy is crafting her response...")])
       (mkSession (Some h) (Some true))) /\
    history_at σ' h
      (turn_of <$> (rcs ++ [(lit "user", PStr (user_input wd));
                            (lit "assistant", v)])) /\
    ((strip (user_input wd) = [] /\ s' = sent w /\
      v = PStr (lit "🤔 I sense the quiet before an adventure... What's stirring in your traveler's heart?"))
     \/
     (strip (user_input wd) <> [] /\
      s' = sent w ++
           [request_with key
              (expected_messages
                 (turn_of <$> (rcs ++ [(lit "user", PStr (user_input wd))]))
                 (user_input wd))] /\
      reply_of (network (sent w)
                  (request_with key
                     (expected_messages
                        (turn_of <$>
                           (rcs ++ [(lit "user", PStr (user_input wd))]))
                        (user_input wd))))
        = Ret v)) /\
    (forall l o, heap w !! l = Some o ->
       ss_messages (session_state w) <> Some l -> σ' !! l = Some o) /\
    (forall l refs, ss_messages (session_state w) = Some l ->
       heap w !! l = Some (OList refs) ->
       exists d1 d2, σ' !! l = Some (OList (refs ++ [d1; d2]))).
Proof.
  intros Hc Hvalid Hclear Hsub Hin. destruct w as [σ s u ss].
  destruct (initialize_session_state_ready σ s
              ((u ++ [set_page_config]) ++ [markdown_style]) ss rcs Hc)
    as (σ0 & h & Hinit & Hσ0 & Hh & _ & Hsame & Hnew).
  set (ancy := fresh (dom σ0)).
  set (σ1 := <[ancy := OAncy key]> σ0).
  assert (H01 : σ0 ⊆ σ1) by apply insert_subseteq, fresh_lookup.
  pose proof (history_at_weaken _ _ _ _ H01 Hh) as Hh1.
  pose proof Hh1 as (refs & Hl & Hrefs). apply Forall2_fmap_r in Hrefs.
  destruct (handle_user_input_submitted network ancy key wd h
              (turn_of <$> rcs) σ1 s
              (((((u ++ [set_page_config]) ++ [markdown_style])
                   ++ (if default false (ss_ancy_initialized ss)
                       then [] else [welcome_message]))
                  ++ [clear_button]) ++ (bubble_of <$> rcs)
                 ++ [divider] ++ [chat_form])
              (mkSession (Some h) (Some true)))
    as (σ' & s' & v & Hrun & Hh' & Hv & Hframe & Hlist);
    [apply lookup_insert_eq|done|exact Hh1|exact Hsub|exact Hin|].
  exists σ', h, s', v. split; [|split; [|split; [|split]]].
  - run_main_prefix Hinit Hvalid. rewrite Hclear.
    erewrite bind_ret by reflexivity.
    erewrite bind_ret by (by apply get_messages_run).
    erewrite bind_ret by (apply list_iter_run; exact Hl).
    erewrite bind_ret by (apply display_messages_run; exact Hrefs).
    erewrite bind_ret by apply st_run.
    erewrite bind_ret by apply st_run.
    erewrite bind_control; cycle 1.
    { etrans; [|exact Hrun]. f_equal. f_equal. by rewrite <- !app_assoc. }
    cbn [sent ui_log session_state ss_ancy_initialized].
    f_equal. f_equal. by rewrite <- !app_assoc.
  - rewrite fmap_app. exact Hh'.
  - cbn [sent]. rewrite !fmap_app in *. exact Hv.
  - cbn [heap session_state]. intros l o Ho Hne. apply Hframe.
    + eapply lookup_weaken; [exact Ho|]. by etrans.
    + intros ->. destruct (ss_messages ss) as [h0|] eqn:E.
      * by rewrite (Hsame h0 eq_refl) in Hne.
      * rewrite (Hnew eq_refl) in Ho. discriminate.
  - cbn [heap session_state]. intros l refs0 E Ho.
    rewrite <- (Hsame l E). apply Hlist. rewrite (Hsame l E).
    eapply lookup_weaken; [exact Ho|]. by etrans.
Qed.

(** X9: the display loop shows the stored turns in their order, one bubble
    each: the user's bubble for a turn whose role is ["user"], Ancy's for
    any other role.  It changes no object, sends nothing and leaves the
    session state as it is. *)
Theorem display_messages_shows_turns (refs : list loc)
    (rcs : list (str * pyval)) (σ : gmap loc obj) (s : list Request)
    (u : list ui_call) (ss : SessionState) :
  Forall2 (fun r rc => σ !! r = Some (ODict (turn rc.1 rc.2))) refs rcs ->
  display_messages refs (mkWorld σ s u ss)
  = (Ret tt,
     mkWorld σ s
       (u ++ ((fun rc => if bool_decide (rc.1 = lit "user")
                         then user_bubble rc.2 else ancy_bubble rc.2)
                <$> rcs))
       ss).
Proof. intros H. by apply display_messages_run. Qed.

(** X10: a run of [main] with an accepted key in which a text is submitted
    (and the clear button is not pressed) ends in a rerun with the stored
    conversation longer by two turns: the user's text, then an assistant
    turn holding what [chat] returned, be it the reply or a failure
    message.  For a text of whitespace only nothing is sent and the
    assistant turn holds the prompt for input; otherwise one request is
    sent, authorised with the configured key, whose history part already
    ends with the new user turn. *)
Theorem main_submission_stores_exchange (key : str) (wd : Widgets)
    (w : World) (rcs : list (str * pyval)) :
  conversation_at w rcs ->
  truthy (validate_api_key (Some key)) = true ->
  clear_clicked wd = false ->
  submit_button wd = true ->
  user_input wd <> [] ->
  exists reply,
    (main network (Some key) wd w).1 = Control RerunScript /\
    conversation_at (main network (Some key) wd w).2
      (rcs ++ [(lit "user", PStr (user_input wd)); (lit "assistant", reply)])
    /\
    ((strip (user_input wd) = [] /\
      sent (main network (Some key) wd w).2 = sent w /\
      reply = PStr (lit "🤔 I sense the quiet before an adventure... What's stirring in your traveler's heart?"))
     \/
     (strip (user_input wd) <> [] /\
      sent (main network (Some key) wd w).2 =
        sent w ++
        [request_with key
           (expected_messages
              (turn_of <$> (rcs ++ [(lit "user", PStr (user_input wd))]))
              (user_input wd))] /\
      reply_of (network (sent w)
                  (request_with key
                     (expected_messages
                        (turn_of <$>
                           (rcs ++ [(lit "user", PStr (user_input wd))]))
                        (user_input wd))))
        = Ret reply)).
Proof.
  intros Hc Hvalid Hclear Hsub Hin.
  destruct (main_submitted key wd w rcs Hc Hvalid Hclear Hsub Hin)
    as (σ' & h & s' & v & -> & Hh & Hv & _).
  exists v. split; [done|]. split; [exact Hh|]. exact Hv.
Qed.

(** X11: a run of [main] with an accepted key in which the clear button is
    pressed ends in a rerun with an empty stored conversation, held by a
    new list object: the objects of the old conversation are not changed.
    Nothing is sent, also when a text was submitted in the same run. *)
Theorem main_clear_resets_conversation (key : str) (wd : Widgets) (w : World)
    (rcs : list (str * pyval)) :
  conversation_at w rcs ->
  truthy (validate_api_key (Some key)) = true ->
  clear_clicked wd = true ->
  (main network (Some key) wd w).1 = Control RerunScript /\
  conversation_at (main network (Some key) wd w).2 [] /\
  (exists l, ss_messages (session_state (main network (Some key) wd w).2)
             = Some l /\ heap w !! l = None) /\
  (forall l o, heap w !! l = Some o ->
     heap (main network (Some key) wd w).2 !! l = Some o) /\
  sent (main network (Some key) wd w).2 = sent w.
Proof.
  intros Hc Hvalid Hclear.
  destruct (main_cleared key wd w rcs Hc Hvalid Hclear)
    as (σ' & l & -> & Hfresh & Hl & Hsub).
  cbn [fst snd heap sent session_state ss_messages].
  split; [done|]. split.
  { unfold conversation_at. cbn [session_state ss_messages heap].
    exists []. split; [exact Hl|constructor]. }
  split; [by exists l|]. split; [|done].
  intros l0 o H. eapply lookup_weaken; [exact H|exact Hsub].
Qed.

(** X12: a run of [main] with an accepted key, no press of the clear button
    and no submitted text runs to the end: it shows the page setup, the
    welcome message unless the session was already initialised, the clear
    button, one bubble per stored turn in order, the form and the footer.
    It sends nothing, keeps the conversation, marks the session as
    initialised, and creates an [AncyTravelGuide] instance holding the
    key. *)
Theorem main_renders_conversation (key : str) (wd : Widgets) (w : World)
    (rcs : list (str * pyval)) :
  conversation_at w rcs ->
  truthy (validate_api_key (Some key)) = true ->
  clear_clicked wd = false ->
  submit_button wd = false \/ user_input wd = [] ->
  (main network (Some key) wd w).1 = Ret tt /\
  ui_log (main network (Some key) wd w).2 =
    ui_log w ++ [set_page_config; markdown_style]
      ++ (if default false (ss_ancy_initialized (session_state w))
          then [] else [welcome_message])
      ++ [clear_button]
      ++ (bubble_of <$> rcs)
      ++ [divider; chat_form; divider; footer] /\
  sent (main network (Some key) wd w).2 = sent w /\
  conversation_at (main network (Some key) wd w).2 rcs /\
  ss_ancy_initialized (session_state (main network (Some key) wd w).2)
    = Some true /\
  (exists ancy, heap w !! ancy = None /\
     heap (main network (Some key) wd w).2 !! ancy = Some (OAncy key)).
Proof.
  intros Hc Hvalid Hclear Hidle.
  destruct (main_rendered key wd w rcs Hc Hvalid Hclear Hidle)
    as (σ' & h & ancy & -> & Hh & Hsub & Hfresh & Hancy).
  cbn [fst snd heap sent ui_log session_state ss_ancy_initialized].
  split; [done|]. split; [done|]. split; [done|]. split; [exact Hh|].
  split; [done|]. by exists ancy.
Qed.

(** X13: the script keeps the stored conversation well formed.  From a
    session whose conversation is a sequence of exchanges (a user turn
    holding a text, then an assistant turn), a run of [main] with any key,
    any widget values and any service never raises; it ends with a
    conversation that is again a sequence of exchanges: the same one, the
    empty one, or the old one followed by one exchange for the submitted
    text.  It sends at most one request. *)
Theorem main_keeps_conversation (GROQ_API_KEY : option str) (wd : Widgets)
    (w : World) (rcs : list (str * pyval)) :
  conversation_at w rcs ->
  exchanges rcs ->
  exists rcs',
    (forall e, (main network GROQ_API_KEY wd w).1 <> Raise e) /\
    conversation_at (main network GROQ_API_KEY wd w).2 rcs' /\
    exchanges rcs' /\
    (rcs' = rcs \/ rcs' = [] \/
     exists reply,
       rcs' = rcs ++ [(lit "user", PStr (user_input wd));
                      (lit "assistant", reply)]) /\
    (sent (main network GROQ_API_KEY wd w).2 = sent w \/
     exists req, sent (main network GROQ_API_KEY wd w).2 = sent w ++ [req]).
Proof.
  intros Hc Hex.
  assert (Hhalt :
    GROQ_API_KEY = None \/ truthy (validate_api_key GROQ_API_KEY) = false ->
    exists rcs',
      (forall e, (main network GROQ_API_KEY wd w).1 <> Raise e) /\
      conversation_at (main network GROQ_API_KEY wd w).2 rcs' /\
      exchanges rcs' /\
      (rcs' = rcs \/ rcs' = [] \/
       exists reply,
         rcs' = rcs ++ [(lit "user", PStr (user_input wd));
                        (lit "assistant", reply)]) /\
      (sent (main network GROQ_API_KEY wd w).2 = sent w \/
       exists req,
         sent (main network GROQ_API_KEY wd w).2 = sent w ++ [req])).
  { intros H. destruct (main_halted GROQ_API_KEY wd w rcs Hc H)
      as (E & Hc' & Hs & _).
    exists rcs. rewrite E. split; [discriminate|]. split; [exact Hc'|].
    split; [exact Hex|]. split; by left. }
  destruct GROQ_API_KEY as [key|]; [|by apply Hhalt; left].
  destruct (truthy (validate_api_key (Some key))) eqn:Hvalid;
    [|by apply Hhalt; right].
  clear Hhalt. destruct (clear_clicked wd) eqn:Hclear.
  { destruct (main_cleared key wd w rcs Hc Hvalid Hclear)
      as (σ' & l & -> & _ & Hl & _).
    exists []. cbn [fst snd sent]. split; [discriminate|]. split.
    { unfold conversation_at. cbn [session_state ss_messages heap].
      exists []. split; [exact Hl|constructor]. }
    split; [constructor|]. auto. }
  destruct (submit_button wd) eqn:Hsub; cycle 1.
  { destruct (main_rendered key wd w rcs Hc Hvalid Hclear (or_introl Hsub))
      as (σ' & h & ancy & -> & Hh & _).
    exists rcs. cbn [fst snd sent]. split; [discriminate|]. auto. }
  destruct (decide (user_input wd = [])) as [Hin|Hin].
  { destruct (main_rendered key wd w rcs Hc Hvalid Hclear (or_intror Hin))
      as (σ' & h & ancy & -> & Hh & _).
    exists rcs. cbn [fst snd sent]. split; [discriminate|]. auto. }
  destruct (main_submitted key wd w rcs Hc Hvalid Hclear Hsub Hin)
    as (σ' & h & s' & v & -> & Hh & Hv & _).
  exists (rcs ++ [(lit "user", PStr (user_input wd)); (lit "assistant", v)]).
  cbn [fst snd sent]. split; [discriminate|]. split; [exact Hh|].
  split; [by constructor|]. split; [right; right; by exists v|].
  destruct Hv as [(_ & -> & _)|(_ & -> & _)]; [by left|right; by eexists].
Qed.

End MainRuns.

Section RequestWindow.

Variable network : list Request -> Request -> post_outcome.

(** X14: because the new user turn is stored before [chat] is called, the
    request of a submission carries the preamble, the last nine turns of
    the conversation as it was before the submission (all of them when
    there are fewer), and the new user turn twice. *)
Theorem main_request_window (key : str) (wd : Widgets) (w : World)
    (rcs : list (str * pyval)) :
  conversation_at w rcs ->
  truthy (validate_api_key (Some key)) = true ->
  clear_clicked wd = false ->
  submit_button wd = true ->
  strip (user_input wd) <> [] ->
  exists req,
    sent (main network (Some key) wd w).2 = sent w ++ [req] /\
    request_messages req =
      Some (PList (PDict <$>
        turn (lit "system") (PStr SYSTEM_PROMPT)
          :: last_n 9 (turn_of <$> rcs)
          ++ [turn (lit "user") (PStr (user_input wd));
              turn (lit "user") (PStr (user_input wd))])).
Proof.
  intros Hc Hvalid Hclear Hsub Hne.
  assert (Hin : user_input wd <> []) by (by intros E; rewrite E in Hne).
  destruct (main_submitted network key wd w rcs Hc Hvalid Hclear Hsub Hin)
    as (σ' & h & s' & v & -> & _ & [(Hb & _)|(_ & -> & _)] & _); [done|].
  eexists. split; [reflexivity|].
  unfold request_with, request_messages, expected_messages.
  cbn [req_json]. rewrite fmap_app. cbn [fmap list_fmap].
  rewrite last_n_snoc. rewrite <- app_assoc.
  reflexivity.
Qed.

End RequestWindow.

(** * Concrete runs of the further properties *)

Lemma example_conversation : conversation_at example_world example_rcs.
Proof.
  exists [3%positive; 4%positive]. split; [vm_compute; reflexivity|].
  repeat constructor.
Qed.

Lemma example_key_accepted :
  truthy (validate_api_key (Some example_key)) = true.
Proof. vm_compute. reflexivity. Qed.

Lemma example_exchanges : exchanges example_rcs.
Proof. exact (exchanges_snoc [] _ _ exchanges_nil). Qed.

Lemma chat_request_envelope_witness :
  exists req,
    sent (chat (always (json_response 200 (lit "OK") bonjour_body)) 1%positive
            (lit "Bonjour ?") 2%positive example_world).2
      = sent example_world ++ [req] /\
    req_url req = lit "https://api.groq.com/openai/v1/chat/completions" /\
    req_timeout req = 30.
Proof.
  destruct (chat_request_envelope
              (always (json_response 200 (lit "OK") bonjour_body))
              1%positive example_key (lit "Bonjour ?") 2%positive
              example_turns example_world
              example_self example_history example_text)
    as (req & messages & Hs & Hu & _ & Ht & _).
  exists req. split; [exact Hs|]. split; [exact Hu|exact Ht].
Defined.

Lemma chat_transport_failure_witness :
  (chat (failing (ConnectTimedOut (lit "connect timed out"))) 1%positive
     (lit "Bonjour ?") 2%positive example_world).1
  = Ret (PStr (lit "🌐 Connection error. Please check your internet connection.")).
Proof.
  exact (chat_transport_failure
           (failing (ConnectTimedOut (lit "connect timed out")))
           1%positive example_key (lit "Bonjour ?") 2%positive example_turns
           example_world (ConnectTimedOut (lit "connect timed out"))
           example_self example_history example_text eq_refl).
Defined.

Lemma chat_body_not_json_witness :
  (chat (always (mkResponse 200 (lit "OK") GROQ_API_URL
                   (inl (lit "Expecting value"))))
     1%positive (lit "Bonjour ?") 2%positive example_world).1
  = Ret (PStr (lit "📄 Invalid response format from API.")).
Proof.
  refine (chat_body_not_json _ 1%positive example_key (lit "Bonjour ?")
            2%positive example_turns example_world
            (mkResponse 200 (lit "OK") GROQ_API_URL
               (inl (lit "Expecting value")))
            (lit "Expecting value")
            example_self example_history example_text eq_refl _ eq_refl).
  left. cbn [status_code]. lia.
Defined.

Lemma chat_body_not_object_witness :
  (chat (always (json_response 200 (lit "OK") (PList []))) 1%positive
     (lit "Bonjour ?") 2%positive example_world).1
  = Ret (PStr (lit "❌ Unexpected error: list indices must be integers or slices, not str")).
Proof.
  refine (chat_body_not_object _ 1%positive example_key (lit "Bonjour ?")
            2%positive example_turns example_world
            (json_response 200 (lit "OK") (PList [])) (PList [])
            example_self example_history example_text eq_refl _ eq_refl _).
  - left. cbn [status_code json_response]. lia.
  - discriminate.
Defined.

Lemma chat_first_choice_witness :
  (chat (always (json_response 200 (lit "OK") null_content_body)) 1%positive
     (lit "Bonjour ?") 2%positive example_world).1
  = Ret PNone.
Proof.
  refine (chat_first_choice _ 1%positive example_key (lit "Bonjour ?")
            2%positive example_turns example_world
            (json_response 200 (lit "OK") null_content_body)
            [(lit "choices",
              PList [PDict [(lit "message",
                             PDict [(lit "content", PNone)])]])]
            [(lit "message", PDict [(lit "content", PNone)])]
            [(lit "content", PNone)] [] PNone
            example_self example_history example_text eq_refl _ eq_refl
            _ _ _).
  - left. cbn [status_code json_response]. lia.
  - vm_compute. reflexivity.
  - vm_compute. reflexivity.
  - vm_compute. reflexivity.
Defined.

Lemma chat_calls_service_iff_text_witness :
  sent (chat (always (json_response 200 (lit "OK") bonjour_body)) 1%positive
          (lit "   ") 2%positive example_world).2
  = sent example_world.
Proof.
  refine (proj1 (chat_calls_service_iff_text _ 1%positive example_key
                   (lit "   ") 2%positive example_turns example_world
                   example_self example_history) _).
  vm_compute. reflexivity.
Defined.

Lemma chat_scope_witness :
  (sent (chat (failing (ReadTimedOut (lit "read timed out"))) 1%positive
           (lit "Bonjour ?") 2%positive example_world).2
     = sent example_world \/
   exists req,
     sent (chat (failing (ReadTimedOut (lit "read timed out"))) 1%positive
             (lit "Bonjour ?") 2%positive example_world).2
       = sent example_world ++ [req]) /\
  ui_log (chat (failing (ReadTimedOut (lit "read timed out"))) 1%positive
            (lit "Bonjour ?") 2%positive example_world).2
    = ui_log example_world /\
  session_state (chat (failing (ReadTimedOut (lit "read timed out")))
                   1%positive (lit "Bonjour ?") 2%positive example_world).2
    = session_state example_world.
Proof.
  exact (chat_scope (failing (ReadTimedOut (lit "read timed out")))
           1%positive example_key (lit "Bonjour ?") 2%positive example_turns
           example_world example_self example_history).
Defined.

Lemma initialize_session_state_keeps_witness :
  ss_messages (session_state (initialize_session_state example_world).2)
    = Some 2%positive
  /\ heap (initialize_session_state example_world).2 = heap example_world.
Proof.
  destruct (initialize_session_state_keeps example_world)
    as (_ & _ & _ & _ & H & _).
  apply H. reflexivity.
Defined.

Lemma display_messages_shows_turns_witness :
  display_messages [3%positive; 4%positive] example_world
  = (Ret tt,
     mkWorld (heap example_world) [] 
       ([] ++ ((fun rc => if bool_decide (rc.1 = lit "user")
                          then user_bubble rc.2 else ancy_bubble rc.2)
                 <$> example_rcs))
       (mkSession (Some 2%positive) (Some true))).
Proof.
  refine (display_messages_shows_turns [3%positive; 4%positive] example_rcs
            (heap example_world) [] [] (mkSession (Some 2%positive) (Some true))
            _).
  repeat constructor.
Defined.

Lemma main_submission_stores_exchange_witness :
  exists reply,
    (main (always (json_response 200 (lit "OK") bonjour_body))
       (Some example_key) (mkWidgets false (lit "Bonjour ?") true)
       example_world).1 = Control RerunScript /\
    conversation_at
      (main (always (json_response 200 (lit "OK") bonjour_body))
         (Some example_key) (mkWidgets false (lit "Bonjour ?") true)
         example_world).2
      (example_rcs ++ [(lit "user", PStr (lit "Bonjour ?"));
                       (lit "assistant", reply)]).
Proof.
  destruct (main_submission_stores_exchange
              (always (json_response 200 (lit "OK") bonjour_body))
              example_key (mkWidgets false (lit "Bonjour ?") true)
              example_world example_rcs
              example_conversation example_key_accepted eq_refl eq_refl)
    as (reply & H1 & H2 & _).
  - vm_compute. discriminate.
  - exists reply. split; [exact H1|exact H2].
Defined.

Lemma main_clear_resets_conversation_witness :
  (main (always (json_response 200 (lit "OK") bonjour_body))
     (Some example_key) (mkWidgets true (lit "Bonjour ?") true)
     example_world).1 = Control RerunScript /\
  conversation_at
    (main (always (json_response 200 (lit "OK") bonjour_body))
       (Some example_key) (mkWidgets true (lit "Bonjour ?") true)
       example_world).2 [].
Proof.
  destruct (main_clear_resets_conversation
              (always (json_response 200 (lit "OK") bonjour_body))
              example_key (mkWidgets true (lit "Bonjour ?") true)
              example_world example_rcs
              example_conversation example_key_accepted eq_refl)
    as (H1 & H2 & _).
  split; [exact H1|exact H2].
Defined.

Lemma main_renders_conversation_witness :
  (main (always (json_response 200 (lit "OK") bonjour_body))
     (Some example_key) (mkWidgets false [] false) example_world).1 = Ret tt
  /\
  sent (main (always (json_response 200 (lit "OK") bonjour_body))
          (Some example_key) (mkWidgets false [] false) example_world).2
    = sent example_world.
Proof.
  destruct (main_renders_conversation
              (always (json_response 200 (lit "OK") bonjour_body))
              example_key (mkWidgets false [] false)
              example_world example_rcs
              example_conversation example_key_accepted eq_refl
              (or_introl eq_refl))
    as (H1 & _ & H3 & _).
  split; [exact H1|exact H3].
Defined.

Lemma main_keeps_conversation_witness :
  exists rcs',
    (forall e,
       (main (failing (ConnectionFailed (lit "unreachable")))
          (Some example_key) (mkWidgets false (lit "Bonjour ?") true)
          example_world).1 <> Raise e) /\
    conversation_at
      (main (failing (ConnectionFailed (lit "unreachable")))
         (Some example_key) (mkWidgets false (lit "Bonjour ?") true)
         example_world).2 rcs' /\
    exchanges rcs'.
Proof.
  destruct (main_keeps_conversation
              (failing (ConnectionFailed (lit "unreachable")))
              (Some example_key) (mkWidgets false (lit "Bonjour ?") true)
              example_world example_rcs
              example_conversation example_exchanges)
    as (rcs' & H1 & H2 & H3 & _).
  exists rcs'. split; [exact H1|]. split; [exact H2|exact H3].
Defined.

Lemma main_request_window_witness :
  exists req,
    sent (main (always (json_response 200 (lit "OK") bonjour_body))
            (Some example_key) (mkWidgets false (lit "Bonjour ?") true)
            example_world).2 = sent example_world ++ [req] /\
    request_messages req =
      Some (PList (PDict <$>
        turn (lit "system") (PStr SYSTEM_PROMPT)
          :: last_n 9 (turn_of <$> example_rcs)
          ++ [turn (lit "user") (PStr (lit "Bonjour ?"));
              turn (lit "user") (PStr (lit "Bonjour ?"))])).
Proof.
  refine (main_request_window
            (always (json_response 200 (lit "OK") bonjour_body))
            example_key (mkWidgets false (lit "Bonjour ?") true)
            example_world example_rcs
            example_conversation example_key_accepted eq_refl eq_refl _).
  vm_compute. discriminate.
Defined.

(** A session of two submissions: the failure message of the first call is
    stored as the assistant turn and is part of the second request. *)
Example failure_message_is_sent_back :
  let net := failing (ConnectionFailed (lit "unreachable")) in
  let w1 := (main net (Some example_key) (mkWidgets false (lit "One") true)
               empty_world).2 in
  let w2 := (main net (Some example_key) (mkWidgets false (lit "Two") true)
               w1).2 in
  (request_messages <$> sent w2) =
    Some <$>
      [PList (PDict <$> [preamble; user_turn (lit "One"); user_turn (lit "One")]);
       PList (PDict <$>
         [preamble; user_turn (lit "One");
          turn (lit "assistant")
            (PStr (lit "🌐 Connection error. Please check your internet connection."));
          user_turn (lit "Two"); user_turn (lit "Two")])].
Proof. vm_compute. reflexivity. Qed.

Section StoredObjects.

Variable network : list Request -> Request -> post_outcome.

(** X15: a run of [main] changes no object that existed before it, except
    that the list holding the stored conversation may get new elements at
    its end: turns are never modified once created, and the stored list is
    only ever appended to (the clear button makes the session refer to a
    new list and leaves the old one as it was). *)
Theorem main_only_appends (GROQ_API_KEY : option str) (wd : Widgets)
    (w : World) (rcs : list (str * pyval)) :
  conversation_at w rcs ->
  forall l o, heap w !! l = Some o ->
    (ss_messages (session_state w) <> Some l ->
     heap (main network GROQ_API_KEY wd w).2 !! l = Some o) /\
    (forall refs, o = OList refs ->
     exists more,
       heap (main network GROQ_API_KEY wd w).2 !! l
       = Some (OList (refs ++ more))).
Proof.
  intros Hc l o Ho.
  assert (Hgrow : heap w ⊆ heap (main network GROQ_API_KEY wd w).2 ->
    (ss_messages (session_state w) <> Some l ->
     heap (main network GROQ_API_KEY wd w).2 !! l = Some o) /\
    (forall refs, o = OList refs ->
     exists more,
       heap (main network GROQ_API_KEY wd w).2 !! l
       = Some (OList (refs ++ more)))).
  { intros Hsub. split.
    - intros _. eapply lookup_weaken; [exact Ho|exact Hsub].
    - intros refs ->. exists []. rewrite app_nil_r.
      eapply lookup_weaken; [exact Ho|exact Hsub]. }
  destruct GROQ_API_KEY as [key|]; cycle 1.
  { apply Hgrow. by destruct (main_halted network None wd w rcs Hc)
      as (_ & _ & _ & H); [left|]. }
  destruct (truthy (validate_api_key (Some key))) eqn:Hvalid; cycle 1.
  { apply Hgrow. by destruct (main_halted network (Some key) wd w rcs Hc)
      as (_ & _ & _ & H); [right|]. }
  destruct (clear_clicked wd) eqn:Hclear.
  { apply Hgrow.
    by destruct (main_cleared network key wd w rcs Hc Hvalid Hclear)
      as (σ' & l' & -> & _ & _ & H). }
  destruct (submit_button wd) eqn:Hsub; cycle 1.
  { apply Hgrow.
    by destruct (main_rendered network key wd w rcs Hc Hvalid Hclear
                   (or_introl Hsub)) as (σ' & h & a & -> & _ & H & _). }
  destruct (decide (user_input wd = [])) as [Hin|Hin].
  { apply Hgrow.
    by destruct (main_rendered network key wd w rcs Hc Hvalid Hclear
                   (or_intror Hin)) as (σ' & h & a & -> & _ & H & _). }
  clear Hgrow.
  destruct (main_submitted network key wd w rcs Hc Hvalid Hclear Hsub Hin)
    as (σ' & h & s' & v & -> & _ & _ & Hframe & Hlist).
  cbn [snd heap]. split.
  - intros Hne. by apply Hframe.
  - intros refs ->.
    destruct (decide (ss_messages (session_state w) = Some l)) as [E|E].
    + destruct (Hlist l refs E Ho) as (d1 & d2 & H). by exists [d1; d2].
    + exists []. rewrite app_nil_r. by apply Hframe.
Qed.

End StoredObjects.

Lemma main_only_appends_witness :
  exists more,
    heap (main (always (json_response 200 (lit "OK") bonjour_body))
            (Some example_key) (mkWidgets false (lit "Bonjour ?") true)
            example_world).2 !! 2%positive
    = Some (OList ([3%positive; 4%positive] ++ more)).
Proof.
  refine (proj2 (main_only_appends
                   (always (json_response 200 (lit "OK") bonjour_body))
                   (Some example_key)
                   (mkWidgets false (lit "Bonjour ?") true)
                   example_world example_rcs example_conversation
                   2%positive (OList [3%positive; 4%positive]) _)
            [3%positive; 4%positive] eq_refl).
  vm_compute. reflexivity.
Defined.
